(** * Currency converter (app.py): conversion and fallback logic

    A shallow embedding of the Streamlit script [app.py].  Python floats are
    IEEE-754 binary64 values, modelled with the executable specification of
    the Standard Library ([SpecFloat], precision 53, emax 1024).  Python
    exceptions are an explicit result type, and the script runs in a small
    state-and-exception monad over a [world] that holds the module globals,
    the behaviour of the remote rate service, the log of lookups sent to it
    and the elements rendered on the page. *)

From stdpp Require Import base option list strings gmap.
From Stdlib Require Import ZArith QArith Qabs Qpower Qfield Lia Lqa.
From Stdlib Require Import Floats.SpecFloat.

#[local] Open Scope Z_scope.

(** ** Python floats *)

Module Float.

Definition prec : Z := 53.
Definition emax : Z := 1024.

Definition float : Type := spec_float.

Definition mul : float -> float -> float := SFmul prec emax.
Definition div : float -> float -> float := SFdiv prec emax.

(** [float(n)] for a Python int: nearest binary64, ties to even.  The
    caller checks the range (CPython raises [OverflowError]). *)
Definition of_Z (n : Z) : float := binary_normalize prec emax n 0 false.

(** A decimal literal [d / 10^k] such as [0.0068] = [decimal 68 4]: the
    binary64 nearest to it.  Both operands are exact in binary64 for the
    literals of this program, so the correctly rounded quotient is the
    correctly rounded literal. *)
Definition decimal (d : Z) (k : nat) : float :=
  div (of_Z d) (of_Z (10 ^ Z.of_nat k)).

Definition is_zero (x : float) : bool :=
  match x with S754_zero _ => true | _ => false end.

Definition is_finite (x : float) : bool :=
  match x with S754_zero _ | S754_finite _ _ _ => true | _ => false end.

(** A float is positive when it is a finite non-zero number or infinity
    with a clear sign bit. *)
Definition is_pos (x : float) : bool :=
  match x with
  | S754_finite false _ _ | S754_infinity false => true
  | _ => false
  end.

Definition valid (x : float) : bool := valid_binary prec emax x.

Definition abs (x : float) : float := SFabs x.
Definition leb (x y : float) : bool := SFleb x y.

(** The float [2^k], for [k] in the normal range. *)
Definition exp2 (k : Z) : float := S754_finite false (2 ^ 52) (k - 52).

(** A valid float between [2^lo] and [2^hi]. *)
Definition in_range (lo hi : Z) (a : float) : bool :=
  valid a && leb (exp2 lo) a && leb a (exp2 hi).

Definition one : float := S754_finite false 4503599627370496 (-52).
Definition two : float := S754_finite false 4503599627370496 (-51).
Definition max_float : float := S754_finite false 9007199254740991 971.
Definition min_subnormal : float := S754_finite false 1 (-1074).
Definition inf : float := S754_infinity false.

(** The rational number a finite float denotes. *)
Definition pow2 (e : Z) : Q := Qpower 2 e.

Definition to_Q (x : float) : Q :=
  match x with
  | S754_finite s m e =>
      (if s then Qopp (inject_Z (Zpos m)) else inject_Z (Zpos m)) * pow2 e
  | _ => 0%Q
  end.

End Float.

Abbreviation float := Float.float.

(** ** Exceptions and JSON values *)

Inductive exn : Type :=
  | KeyError (key : string)
  | ValueError
  | TypeError
  | AttributeError
  | ZeroDivisionError
  | OverflowError
  | RequestException.

Inductive res (A : Type) : Type :=
  | Ok (a : A)
  | Raise (e : exn).
Arguments Ok {A} a.
Arguments Raise {A} e.

(** What [r.json()] returns.  An object keeps its items in a list; a key is
    looked up from the front. *)
#[warnings="-register-all"]
Inductive json : Type :=
  | JNull
  | JBool (b : bool)
  | JInt (n : Z)
  | JFloat (x : float)
  | JStr (s : string)
  | JArr (l : list json)
  | JObj (items : list (string * json)).

Fixpoint assoc (k : string) (items : list (string * json)) : option json :=
  match items with
  | [] => None
  | (k', v) :: rest => if String.eqb k k' then Some v else assoc k rest
  end.

(** [d.get(k)]: [None] when the key is missing; [AttributeError] when [d]
    is not a dict. *)
Definition py_get (d : json) (k : string) : res json :=
  match d with
  | JObj items => Ok (default JNull (assoc k items))
  | _ => Raise AttributeError
  end.

(** [d.get(k, {})]. *)
Definition py_get_or_empty (d : json) (k : string) : res json :=
  match d with
  | JObj items => Ok (default (JObj []) (assoc k items))
  | _ => Raise AttributeError
  end.

(** [d[k]]. *)
Definition py_getitem (d : json) (k : string) : res json :=
  match d with
  | JObj items =>
      match assoc k items with
      | Some v => Ok v
      | None => Raise (KeyError k)
      end
  | _ => Raise TypeError
  end.

(** [float(n)] for an int [n]; too large a magnitude raises. *)
Definition float_of_int (n : Z) : res float :=
  let x := Float.of_Z n in
  if Float.is_finite x then Ok x else Raise OverflowError.

(** [amount * r] for a float [amount] and a JSON value [r]. *)
Definition py_mul (amount : float) (r : json) : res float :=
  match r with
  | JFloat x => Ok (Float.mul amount x)
  | JInt n =>
      match float_of_int n with
      | Ok x => Ok (Float.mul amount x)
      | Raise e => Raise e
      end
  | JBool b => Ok (Float.mul amount (Float.of_Z (if b then 1 else 0)))
  | _ => Raise TypeError
  end.

(** [x / y] for floats. *)
Definition py_truediv (x y : float) : res float :=
  if Float.is_zero y then Raise ZeroDivisionError else Ok (Float.div x y).

(** [f"{v:.4f}"] and [f"{v:.6f}"]: the float that is printed. *)
Definition py_format_f (v : json) : res float :=
  match v with
  | JFloat x => Ok x
  | JInt n => float_of_int n
  | JBool b => Ok (Float.of_Z (if b then 1 else 0))
  | JStr _ => Raise ValueError
  | _ => Raise TypeError
  end.

(** Truth value of [if v:]. *)
Definition py_truthy (v : json) : bool :=
  match v with
  | JNull => false
  | JBool b => b
  | JInt n => negb (n =? 0)
  | JFloat x => negb (Float.is_zero x)
  | JStr s => negb (String.eqb s "")
  | JArr l => match l with [] => false | _ => true end
  | JObj l => match l with [] => false | _ => true end
  end.

(** ** The module globals *)

Definition CURRENCIES : list string :=
  [ "USD"; "EUR"; "GBP"; "JPY"; "AUD"; "CAD"; "CHF"; "CNY"; "INR"; "PKR"; "SGD"; "NZD";
    "SEK"; "NOK"; "RUB"; "BRL"; "ZAR"; "AED"; "SAR"; "MXN"; "TRY"; "HKD"; "IDR"; "THB";
    "VND"; "ILS" ]%string.

(** The items of the dict literal, in source order. *)
Definition OFFLINE_RATES_items : list (string * float) :=
  [ ("USD", Float.decimal 10 1); ("EUR", Float.decimal 108 2);
    ("GBP", Float.decimal 127 2); ("JPY", Float.decimal 68 4);
    ("AUD", Float.decimal 63 2); ("CAD", Float.decimal 74 2);
    ("CHF", Float.decimal 109 2); ("CNY", Float.decimal 14 2);
    ("INR", Float.decimal 12 3); ("PKR", Float.decimal 33 4);
    ("SGD", Float.decimal 74 2); ("NZD", Float.decimal 59 2);
    ("SEK", Float.decimal 92 3); ("NOK", Float.decimal 93 3);
    ("RUB", Float.decimal 12 3); ("BRL", Float.decimal 19 2);
    ("ZAR", Float.decimal 49 3); ("AED", Float.decimal 27 2);
    ("SAR", Float.decimal 27 2); ("MXN", Float.decimal 56 3);
    ("TRY", Float.decimal 34 3); ("HKD", Float.decimal 128 3);
    ("IDR", Float.decimal 62 6); ("THB", Float.decimal 27 3);
    ("VND", Float.decimal 42 6); ("ILS", Float.decimal 27 2) ]%string.

Definition OFFLINE_RATES : gmap string float :=
  list_to_map OFFLINE_RATES_items.

Record globals : Type := Globals {
  g_CURRENCIES : list string;
  g_OFFLINE_RATES : gmap string float
}.

Definition module_globals : globals :=
  {| g_CURRENCIES := CURRENCIES; g_OFFLINE_RATES := OFFLINE_RATES |}.


(** ** The world the script runs in *)

(** A lookup sent to the remote service: the two URLs of the script. *)
Inductive request : Type :=
  | Latest (base : string)
  | Convert (amount : float) (frm to : string).

Inductive source : Type := live | offline.

(** A cell of the table: [f"{val:.4f}"] or ["N/A"]. *)
Inductive cell : Type :=
  | Amount (x : float)
  | NA.

(** What the script renders, one constructor per [st.*] call. *)
Inductive element : Type :=
  | st_title
  | st_write_intro
  | st_success (value : float) (cur : string) (src : source)
  | st_error_offline (e : exn)
  | st_error_both (e : exn)
  | st_warning_live_failed
  | st_warning_table_failed
  | st_caption_rate (frm : string) (rate : float) (to : string) (date : json)
  | st_caption_date (date : json)
  | st_markdown_rule
  | st_header (amount : float) (frm : string)
  | st_table (rows : list (string * cell))
  | st_write_notes.

Record world : Type := World {
  env : globals;                    (* the module namespace *)
  service : request -> res json;    (* the cached remote service *)
  lookups : list request;           (* lookups made so far *)
  page : list element               (* elements rendered so far *)
}.

(** State and exceptions. *)
Definition M (A : Type) : Type := world -> res A * world.

#[export] Instance M_ret : MRet M := fun A (a : A) w => (Ok a, w).

#[export] Instance M_bind : MBind M := fun A B (f : A -> M B) (m : M A) w =>
  match m w with
  | (Ok a, w') => f a w'
  | (Raise e, w') => (Raise e, w')
  end.

Definition lift {A : Type} (r : res A) : M A := fun w => (r, w).

(** [try: body / except Exception as e: handler]. *)
Definition try_except {A : Type} (body : M A) (handler : exn -> M A) : M A :=
  fun w =>
    match body w with
    | (Ok a, w') => (Ok a, w')
    | (Raise e, w') => handler e w'
    end.

Definition read_OFFLINE_RATES : M (gmap string float) :=
  fun w => (Ok (g_OFFLINE_RATES (env w)), w).

Definition read_CURRENCIES : M (list string) :=
  fun w => (Ok (g_CURRENCIES (env w)), w).

Definition rendered (x : element) (w : world) : world :=
  {| env := env w; service := service w;
     lookups := lookups w; page := page w ++ [x] |}.

Definition looked_up (q : request) (w : world) : world :=
  {| env := env w; service := service w;
     lookups := lookups w ++ [q]; page := page w |}.

Definition render (x : element) : M unit :=
  fun w => (Ok tt, rendered x w).

Definition remote (q : request) : M json :=
  fun w => (service w q, looked_up q w).

(** [for x in xs: acc = body(acc, x)], the loops that build [rows]. *)
Fixpoint for_in {A B : Type} (xs : list A) (body : B -> A -> M B) (acc : B) : M B :=
  match xs with
  | [] => mret acc
  | x :: rest => acc' ← body acc x; for_in rest body acc'
  end.

(** ** The functions of the script *)

Definition _fetch_latest_rates (base : string) : M json :=
  remote (Latest base).

Definition _convert_via_api (amount : float) (frm to : string) : M json :=
  remote (Convert amount frm to).

(** [OFFLINE_RATES[k]]. *)
Definition rate_of (k : string) : M float :=
  rates ← read_OFFLINE_RATES;
  match rates !! k with
  | Some r => mret r
  | None => lift (Raise (KeyError k))
  end.

(** [float(amount)]; the amount widget already yields a float. *)
Definition py_float (amount : float) : res float := Ok amount.

Definition offline_convert (amount : float) (frm to : string) : M float :=
  amount ← lift (py_float amount);
  r_frm ← rate_of frm;
  let amount_in_usd := Float.mul amount r_frm in
  r_to ← rate_of to;
  converted ← lift (py_truediv amount_in_usd r_to);
  mret converted.

Definition try_live_convert (amount : float) (frm to : string) : M json :=
  data ← _convert_via_api amount frm to;
  result ← lift (py_get data "result");
  match result with
  | JNull => lift (Raise ValueError)
  | _ => mret data
  end.

Definition try_live_table (amount : float) (frm : string)
  : M (json * list (string * option float)) :=
  data ← _fetch_latest_rates frm;
  rates ← lift (py_get_or_empty data "rates");
  currencies ← read_CURRENCIES;
  rows ← for_in currencies (fun rows cur =>
            val ← (if String.eqb cur frm then mret (Some amount)
                   else
                     r ← lift (py_get rates cur);
                     match r with
                     | JNull => mret None
                     | _ => x ← lift (py_mul amount r); mret (Some x)
                     end);
            mret (rows ++ [(cur, val)])) [];
  date ← lift (py_get data "date");
  mret (date, rows).

(** ** The widgets and the two handlers *)

Record widgets : Type := Widgets {
  use_offline_only : bool;
  show_table : bool;
  cache_minutes : Z;
  amount : float;
  from_curr : string;
  to_curr : string;
  convert_btn : bool
}.

(** Lines 96-100 and 113-117: the same [try] block around
    [offline_convert], each with its own error message. *)
Definition offline_attempt (i : widgets) (on_error : exn -> element) : M unit :=
  try_except
    (converted ← offline_convert (amount i) (from_curr i) (to_curr i);
     render (st_success converted (to_curr i) offline))
    (fun e => render (on_error e)).

(** Lines 94-117. *)
Definition on_convert (i : widgets) : M unit :=
  if use_offline_only i then offline_attempt i st_error_offline
  else
    try_except
      (api_data ← try_live_convert (amount i) (from_curr i) (to_curr i);
       val ← lift (py_getitem api_data "result");
       info ← lift (py_get_or_empty api_data "info");
       rate ← lift (py_get info "rate");
       date ← lift (py_get api_data "date");
       shown ← lift (py_format_f val);
       render (st_success shown (to_curr i) live);;
       if py_truthy rate then
         r ← lift (py_format_f rate);
         render (st_caption_rate (from_curr i) r (to_curr i) date)
       else mret tt)
      (fun _ =>
         render st_warning_live_failed;;
         offline_attempt i st_error_both).

(** Lines 124-126 and 139-141: the offline table, outside any [try]. *)
Definition offline_rows (i : widgets) : M (list (string * cell)) :=
  currencies ← read_CURRENCIES;
  for_in currencies (fun rows cur =>
    x ← offline_convert (amount i) (from_curr i) cur;
    mret (rows ++ [(cur, Amount x)])) [].

Definition pretty (rows : list (string * option float)) : list (string * cell) :=
  map (fun '(cur, val) =>
         (cur, match val with Some x => Amount x | None => NA end)) rows.

(** Lines 120-142. *)
Definition on_show_table (i : widgets) : M unit :=
  render st_markdown_rule;;
  render (st_header (amount i) (from_curr i));;
  if use_offline_only i then
    rows ← offline_rows i; render (st_table rows)
  else
    try_except
      ('(date, rows) ← try_live_table (amount i) (from_curr i);
       render (st_table (pretty rows));;
       render (st_caption_date date))
      (fun _ =>
         render st_warning_table_failed;;
         rows ← offline_rows i; render (st_table rows)).

(** One run of the script for the current widget values. *)
Definition script (i : widgets) : M unit :=
  render st_title;;
  render st_write_intro;;
  (if convert_btn i then on_convert i else mret tt);;
  (if show_table i then on_show_table i else mret tt);;
  render st_markdown_rule;;
  render st_write_notes.

(** The world at the start of a run against a given remote service. *)
Definition boot (svc : request -> res json) : world :=
  {| env := module_globals; service := svc; lookups := []; page := [] |}.

(** ** Auxiliary definitions for the statements *)

(** A computation leaves a component [proj] of the world as it found it. *)
Definition frames {T A : Type} (proj : world -> T) (m : M A) : Prop :=
  forall w, proj (snd (m w)) = proj w.

(** A remote service that is down: every lookup fails. *)
Definition service_down : request -> res json := fun _ => Raise RequestException.

(** [2 * offline_convert(...)]: doubling the value a call returned. *)
Definition twice (r : res float) : res float :=
  match r with
  | Ok x => Ok (Float.mul Float.two x)
  | Raise e => Raise e
  end.

(** Sample widget values: the defaults of the page (1 USD to PKR), the
    Convert button pressed and the table shown. *)
Definition sample_widgets (offline_only : bool) : widgets :=
  {| use_offline_only := offline_only; show_table := true; cache_minutes := 60;
     amount := Float.one; from_curr := "USD"; to_curr := "PKR";
     convert_btn := true |}.

(** A sample "latest rates" response for base USD: rates for EUR (a
    float) and JPY (an int), nothing for the other codes. *)
Definition sample_rates : list (string * json) :=
  [ ("EUR", JFloat (Float.decimal 92 2)); ("JPY", JInt 150) ]%string.

Definition sample_latest : json :=
  JObj [ ("base", JStr "USD"); ("date", JStr "2024-01-01");
         ("rates", JObj sample_rates) ]%string.

Definition sample_service : request -> res json :=
  fun q => match q with
           | Latest _ => Ok sample_latest
           | Convert _ _ _ => Raise RequestException
           end.

(** An amount that is zero or lies between 2^-948 and 2^952, so that no
    step of a conversion overflows or leaves the normal range. *)
Definition moderate (a : float) : bool :=
  match a with
  | S754_zero false => true
  | _ => Float.in_range (-948) 952 a
  end.

(** A rate of the table: positive, normal, between 2^-15 and 2. *)
Definition rate_like (r : float) : bool :=
  match r with
  | S754_finite false m e =>
      (2 ^ 52 <=? Zpos m) && (Zpos m <? 2 ^ 53) && (-67 <=? e) && (e <=? -52)
  | _ => false
  end.

(** The number a JSON rate stands for in [amount * r]. *)
Definition json_number (v : json) : option float :=
  match v with
  | JFloat x => Some x
  | JInt n => if Float.is_finite (Float.of_Z n) then Some (Float.of_Z n) else None
  | _ => None
  end.

(** A well-formed "latest rates" response: an object whose ["rates"], read
    as [data.get("rates", {})] reads it, is an object from codes to
    numbers. *)
Definition well_formed_latest (data : json) (rates : list (string * json)) : Prop :=
  exists items,
    data = JObj items /\
    default (JObj []) (assoc "rates" items) = JObj rates /\
    Forall (fun kv => is_Some (json_number kv.2)) rates.

(** The spec's words for one row of the live snapshot: the base maps to the
    amount itself, a code missing from the response is unavailable, any
    other code maps to the amount times the returned rate. *)
Definition snapshot_value_spec (amount : float) (base : string)
    (rates : list (string * json)) (code : string) : option float :=
  if decide (code = base) then Some amount
  else match assoc code rates with
       | None => None
       | Some r => x ← json_number r; Some (Float.mul amount x)
       end.

(** ** Rounding to nearest even, as [SpecFloat] computes it *)

Definition fexp64 (e : Z) : Z := fexp Float.prec Float.emax e.

(** [rloc mrs N D]: the shift record [mrs] locates the exact value [N / D]:
    its integer part is [shr_m], and the round and sticky bits say where
    the rest lies with respect to one half. *)
Definition rloc (mrs : shr_record) (N D : Z) : Prop :=
  let m := shr_m mrs in
  match shr_r mrs, shr_s mrs with
  | false, false => N = m * D
  | false, true => m * D < N /\ 2 * N < (2 * m + 1) * D
  | true, false => 2 * N = (2 * m + 1) * D
  | true, true => (2 * m + 1) * D < 2 * N /\ N < (m + 1) * D
  end.

(** The mantissa kept and the exponent chosen when [mx * 2^ex], with the
    discarded part located by [lx], is rounded to nearest even. *)
Definition round_core (mx ex : Z) (lx : location) : Z * Z :=
  let e1 := fexp64 (Zdigits2 mx + ex) in
  let mrs := Nat.iter (Z.to_nat (e1 - ex)) shr_1 (shr_record_of_loc mx lx) in
  (round_nearest_even (shr_m mrs) (loc_of_shr_record mrs), e1).

(** Packing a rounded mantissa: a carry into bit 53 moves to the next
    exponent, and too large an exponent gives infinity. *)
Definition finish (s : bool) (m e : Z) : float :=
  if m =? 0 then S754_zero s
  else if m =? 2 ^ 53 then
    if e + 1 <=? 971 then S754_finite s (2 ^ 52) (e + 1) else S754_infinity s
  else
    if e <=? 971 then S754_finite s (Z.to_pos m) e else S754_infinity s.

(** Half an ulp, relatively: 2^-53. *)
Definition half_ulp : Q := 1 # (2 ^ 53).

(** Relative error of one multiplication followed by one division by the
    same number, each rounded to nearest: (1 + 2^-53)^2 - 1. *)
Definition round_trip_tolerance : Q := (1 # 2 ^ 52) + (1 # 2 ^ 106).

(** ** Further definitions for the statements about the handlers *)

(** A float with a clear sign bit that is not a NaN: zero, a positive
    finite number or plus infinity. *)
Definition nonneg (x : float) : bool :=
  match x with
  | S754_zero false | S754_finite false _ _ | S754_infinity false => true
  | _ => false
  end.

(** A computation only appends to the page. *)
Definition grows {A : Type} (m : M A) : Prop :=
  forall w, exists l, page (snd (m w)) = page w ++ l.

(** A computation is a value once the module globals are fixed: it leaves
    the world alone and returns the same result in every world with these
    globals. *)
Definition pure_in {A : Type} (g : globals) (m : M A) : Prop :=
  forall w, env w = g ->
    snd (m w) = w /\ forall w', env w' = g -> fst (m w') = fst (m w).

(** An element that answers a click on Convert: a converted amount or an
    error message. *)
Definition is_answer (x : element) : bool :=
  match x with
  | st_success _ _ _ | st_error_offline _ | st_error_both _ => true
  | _ => false
  end.

(** Widget values with a source currency that is not in the table. *)
Definition unknown_widgets (offline_only : bool) : widgets :=
  {| use_offline_only := offline_only; show_table := true; cache_minutes := 60;
     amount := Float.one; from_curr := "XXX"; to_curr := "PKR";
     convert_btn := true |}.


Definition sample_convert_items_bad_rate : list (string * json) :=
  [ ("result", JFloat (Float.decimal 2785 1));
    ("info", JObj [ ("rate", JStr "278.5") ]);
    ("date", JStr "2024-01-01") ]%string.

Definition sample_convert_items_bad_result : list (string * json) :=
  [ ("result", JStr "278.5"); ("date", JStr "2024-01-01") ]%string.

Definition convert_service (items : list (string * json)) : request -> res json :=
  fun q => match q with
           | Convert _ _ _ => Ok (JObj items)
           | Latest _ => Raise RequestException
           end.

(** Sample "latest rates" answers with a null rate and with a string
    rate. *)
Definition sample_rates_null : list (string * json) :=
  [ ("EUR", JFloat (Float.decimal 92 2)); ("JPY", JNull) ]%string.

Definition sample_rates_bad : list (string * json) :=
  [ ("EUR", JFloat (Float.decimal 92 2)); ("JPY", JStr "150") ]%string.

Definition latest_service (rates : list (string * json)) : request -> res json :=
  fun q => match q with
           | Latest _ => Ok (JObj [ ("date", JStr "2024-01-01"); ("rates", JObj rates) ]%string)
           | Convert _ _ _ => Raise RequestException
           end.

(** * Lemmas about binary64 rounding *)

Section Digits.
Lemma digits2_pos_size p : digits2_pos p = Pos.size p.
Proof. induction p; simpl; congruence. Qed.

Lemma Zdigits2_bounds m : 0 < m -> 2 ^ (Zdigits2 m - 1) <= m < 2 ^ Zdigits2 m.
Proof.
  destruct m as [|p|p]; try lia. intros _. simpl Zdigits2.
  rewrite digits2_pos_size.
  pose proof (Pos.size_gt p) as Hgt. pose proof (Pos.size_le p) as Hle.
  apply Pos2Z.pos_lt_pos in Hgt. apply Pos2Z.pos_le_pos in Hle.
  rewrite Pos2Z.inj_pow in Hgt, Hle.
  replace (Z.pos (Pos.size p)) with (Z.succ (Z.pos (Pos.size p) - 1)) in Hle at 1 by lia.
  rewrite Z.pow_succ_r in Hle by lia.
  lia.
Qed.

Lemma Zdigits2_unique m k : 0 < m -> 2 ^ (k - 1) <= m < 2 ^ k -> Zdigits2 m = k.
Proof.
  intros Hm [Hlo Hhi]. pose proof (Zdigits2_bounds m Hm) as [Hl Hh].
  assert (0 < Zdigits2 m) by (destruct m; simpl; lia).
  assert (0 < k).
  { destruct (Z.lt_trichotomy k 0) as [Hk|[Hk|Hk]]; auto.
    - rewrite Z.pow_neg_r in Hhi; lia.
    - subst k. simpl in Hhi. lia. }
  destruct (Z.lt_trichotomy (Zdigits2 m) k) as [Hc|[Hc|Hc]]; auto.
  - assert (2 ^ Zdigits2 m <= 2 ^ (k - 1)) by (apply Z.pow_le_mono_r; lia). lia.
  - assert (2 ^ k <= 2 ^ (Zdigits2 m - 1)) by (apply Z.pow_le_mono_r; lia). lia.
Qed.
End Digits.

Section Shift.

Lemma shr_1_m mrs : 0 <= shr_m mrs -> shr_m (shr_1 mrs) = shr_m mrs / 2.
Proof.
  destruct mrs as [m r s]; cbn [shr_m]. intros Hm.
  destruct m as [|[p|p|]|p]; cbn [shr_1 shr_m]; try lia; try reflexivity.
  - apply Z.div_unique with (r := 1); lia.
  - apply Z.div_unique with (r := 0); lia.
Qed.

Lemma shr_1_loc mrs N D :
  0 <= shr_m mrs -> 0 < D -> rloc mrs N D -> rloc (shr_1 mrs) N (2 * D).
Proof.
  destruct mrs as [m r s]; unfold rloc; cbn [shr_m shr_r shr_s]. intros Hm HD.
  destruct m as [|[p|p|]|p]; try lia; destruct r, s;
    cbn [shr_1 shr_m shr_r shr_s orb]; nia.
Qed.

Lemma iter_pos_nat {A} (f : A -> A) p x :
  iter_pos f p x = Nat.iter (Pos.to_nat p) f x.
Proof.
  revert x. induction p as [p IH|p IH|]; intros x; cbn [iter_pos].
  - rewrite !IH, Pos2Nat.inj_xI.
    replace (S (2 * Pos.to_nat p)) with (Pos.to_nat p + S (Pos.to_nat p))%nat by lia.
    rewrite Nat.iter_add, Nat.iter_succ_r. reflexivity.
  - rewrite !IH, Pos2Nat.inj_xO.
    replace (2 * Pos.to_nat p)%nat with (Pos.to_nat p + Pos.to_nat p)%nat by lia.
    rewrite Nat.iter_add. reflexivity.
  - reflexivity.
Qed.

Lemma shr_iter_m k mrs :
  0 <= shr_m mrs -> shr_m (Nat.iter k shr_1 mrs) = shr_m mrs / 2 ^ Z.of_nat k.
Proof.
  intros Hm. induction k as [|k IH].
  - simpl. now rewrite Z.div_1_r.
  - rewrite Nat2Z.inj_succ, Z.pow_succ_r by lia. simpl Nat.iter.
    rewrite shr_1_m, IH.
    + rewrite Z.div_div by lia. f_equal. lia.
    + rewrite IH. apply Z.div_pos; lia.
Qed.

Lemma shr_iter_loc k mrs N D :
  0 <= shr_m mrs -> 0 < D -> rloc mrs N D ->
  rloc (Nat.iter k shr_1 mrs) N (2 ^ Z.of_nat k * D).
Proof.
  intros Hm HD Hloc. induction k as [|k IH].
  - simpl. now rewrite Z.mul_1_l.
  - rewrite Nat2Z.inj_succ, Z.pow_succ_r by lia. simpl Nat.iter.
    rewrite <- Z.mul_assoc. apply shr_1_loc; [|lia|exact IH].
    rewrite shr_iter_m by assumption. apply Z.div_pos; lia.
Qed.

End Shift.

Section Rounding.

Lemma fexp64_eq e : fexp64 e = Z.max (e - 53) (-1074).
Proof. reflexivity. Qed.

Lemma shr_nat mrs e n :
  0 <= n -> shr mrs e n = (Nat.iter (Z.to_nat n) shr_1 mrs, e + n).
Proof.
  intros Hn. destruct n as [|p|p]; try lia.
  - simpl. now rewrite Z.add_0_r.
  - unfold shr. now rewrite iter_pos_nat, Z2Nat.inj_pos.
Qed.

Lemma shr_m_record_of_loc m l : shr_m (shr_record_of_loc m l) = m.
Proof. destruct l as [|[]]; reflexivity. Qed.

Lemma round_nearest_even_range m l :
  round_nearest_even m l = m \/ round_nearest_even m l = m + 1.
Proof. destruct l as [|[]]; simpl; auto. destruct (Z.even m); auto. Qed.

Lemma shifted_mantissa mx ex :
  0 <= mx ->
  let e1 := fexp64 (Zdigits2 mx + ex) in
  ex <= e1 ->
  let m1 := mx / 2 ^ (e1 - ex) in
  0 <= m1 < 2 ^ 53 /\ (e1 = -1074 \/ 2 ^ 52 <= m1).
Proof.
  intros Hmx e1 Hn m1. subst m1.
  assert (0 < 2 ^ (e1 - ex)) by (apply Z.pow_pos_nonneg; lia).
  destruct (Z.eq_dec mx 0) as [->|Hnz].
  - rewrite Z.div_0_l by lia. split; [lia|]. left.
    subst e1. simpl Zdigits2 in *. rewrite fexp64_eq in *. lia.
  - pose proof (Zdigits2_bounds mx ltac:(lia)) as [Hlo Hhi].
    set (d := Zdigits2 mx) in *.
    assert (0 < d) by (subst d; destruct mx; simpl; lia).
    assert (He1 : e1 = Z.max (d + ex - 53) (-1074)) by (subst e1; apply fexp64_eq).
    split; [split|].
    + apply Z.div_pos; lia.
    + apply Z.div_lt_upper_bound; [lia|].
      rewrite <- Z.pow_add_r by lia.
      eapply Z.lt_le_trans; [exact Hhi|]. apply Z.pow_le_mono_r; lia.
    + destruct (Z.eq_dec e1 (-1074)); [now left|right].
      apply Z.div_le_lower_bound; [lia|].
      rewrite <- Z.pow_add_r by lia.
      eapply Z.le_trans; [|exact Hlo]. apply Z.pow_le_mono_r; lia.
Qed.

Lemma Zdigits2_le_53 m : 0 < m < 2 ^ 53 -> Zdigits2 m <= 53.
Proof.
  intros [Hp Hlt]. pose proof (Zdigits2_bounds m Hp) as [Hlo _].
  destruct (Z_le_gt_dec (Zdigits2 m) 53); auto.
  assert (2 ^ 53 <= 2 ^ (Zdigits2 m - 1)) by (apply Z.pow_le_mono_r; lia). lia.
Qed.

Lemma binary_round_aux_core s mx ex lx :
  0 <= mx -> ex <= fexp64 (Zdigits2 mx + ex) ->
  binary_round_aux Float.prec Float.emax s mx ex lx =
  finish s (fst (round_core mx ex lx)) (snd (round_core mx ex lx)).
Proof.
  intros Hmx Hex.
  pose proof (shifted_mantissa mx ex Hmx Hex) as Hm1. cbn zeta in Hm1.
  unfold binary_round_aux, shr_fexp, round_core. cbn [fst snd].
  fold (fexp64 (Zdigits2 mx + ex)).
  set (e1 := fexp64 (Zdigits2 mx + ex)) in *.
  rewrite shr_nat by lia.
  replace (ex + (e1 - ex)) with e1 by lia.
  set (mrs := Nat.iter _ shr_1 _).
  assert (Hm : shr_m mrs = mx / 2 ^ (e1 - ex)).
  { subst mrs. rewrite shr_iter_m; rewrite shr_m_record_of_loc; [|lia].
    now rewrite Z2Nat.id by lia. }
  rewrite <- Hm in Hm1. clear Hm.
  set (m2 := round_nearest_even (shr_m mrs) (loc_of_shr_record mrs)).
  assert (Hm2 : m2 = shr_m mrs \/ m2 = shr_m mrs + 1) by apply round_nearest_even_range.
  assert (He1 : -1074 <= e1) by (subst e1; rewrite fexp64_eq; lia).
  clearbody m2 e1. clear Hex. destruct Hm1 as [Hr Hn].
  unfold finish.
  destruct (Z.eqb_spec m2 0) as [->|Hz].
  { simpl Zdigits2. fold (fexp64 (0 + e1)). rewrite fexp64_eq.
    replace (Z.max (0 + e1 - 53) (-1074) - e1) with (- (e1 + 1074)) by lia.
    destruct (e1 + 1074) eqn:E; try lia; reflexivity. }
  destruct (Z.eqb_spec m2 (2 ^ 53)) as [->|Hc].
  { change (Zdigits2 (2 ^ 53)) with 54. fold (fexp64 (54 + e1)). rewrite fexp64_eq.
    replace (Z.max (54 + e1 - 53) (-1074) - e1) with 1 by lia.
    reflexivity. }
  assert (Hlt : 0 < m2 < 2 ^ 53) by lia.
  assert (Hd : Zdigits2 m2 <= 53) by now apply Zdigits2_le_53.
  assert (Hd' : e1 = -1074 \/ Zdigits2 m2 = 53).
  { destruct Hn as [?|Hn]; [now left|right]. apply Zdigits2_unique; lia. }
  fold (fexp64 (Zdigits2 m2 + e1)). rewrite fexp64_eq.
  replace (Z.max (Zdigits2 m2 + e1 - 53) (-1074) - e1) with 0 by lia.
  cbn [shr shr_record_of_loc shr_m].
  destruct m2 as [|p|p]; try lia. reflexivity.
Qed.
End Rounding.

Section RoundValue.

Lemma rloc_record_of_loc_exact m D : rloc (shr_record_of_loc m loc_Exact) (m * D) D.
Proof. reflexivity. Qed.

Lemma rloc_lower mrs N D : 0 < D -> rloc mrs N D -> shr_m mrs * D <= N < (shr_m mrs + 1) * D.
Proof. destruct mrs as [m [] []]; unfold rloc; cbn [shr_m shr_r shr_s]; nia. Qed.

Lemma rloc_exact mrs D :
  0 < D -> rloc mrs (shr_m mrs * D) D -> loc_of_shr_record mrs = loc_Exact.
Proof. destruct mrs as [m [] []]; unfold rloc; cbn [shr_m shr_r shr_s]; intros; try nia; reflexivity. Qed.

Lemma round_nearest_even_err mrs N D :
  0 < D -> rloc mrs N D ->
  2 * Z.abs (round_nearest_even (shr_m mrs) (loc_of_shr_record mrs) * D - N) <= D.
Proof.
  destruct mrs as [m [] []]; unfold rloc; cbn [shr_m shr_r shr_s loc_of_shr_record round_nearest_even];
    intros; try destruct (Z.even m); nia.
Qed.

(** What [round_core] returns, against the exact value [N / D * 2^ex]. *)
Lemma round_core_spec mx ex lx N D :
  0 <= mx -> 0 < D -> rloc (shr_record_of_loc mx lx) N D ->
  ex <= fexp64 (Zdigits2 mx + ex) ->
  let m2 := fst (round_core mx ex lx) in
  let e1 := snd (round_core mx ex lx) in
  let m1 := mx / 2 ^ (e1 - ex) in
  let D' := 2 ^ (e1 - ex) * D in
  e1 = fexp64 (Zdigits2 mx + ex) /\
  (m2 = m1 \/ m2 = m1 + 1) /\
  m1 * D' <= N /\
  2 * Z.abs (m2 * D' - N) <= D'.
Proof.
  intros Hmx HD Hloc Hex. unfold round_core. cbn [fst snd].
  set (e1 := fexp64 (Zdigits2 mx + ex)) in *.
  set (mrs := Nat.iter _ shr_1 _).
  assert (Hm : shr_m mrs = mx / 2 ^ (e1 - ex)).
  { subst mrs. rewrite shr_iter_m; rewrite shr_m_record_of_loc; [|lia].
    now rewrite Z2Nat.id by lia. }
  assert (Hl : rloc mrs N (2 ^ (e1 - ex) * D)).
  { subst mrs.
    replace (2 ^ (e1 - ex) * D) with (2 ^ Z.of_nat (Z.to_nat (e1 - ex)) * D)
      by (now rewrite Z2Nat.id by lia).
    apply shr_iter_loc; auto. now rewrite shr_m_record_of_loc. }
  assert (0 < 2 ^ (e1 - ex) * D).
  { apply Z.mul_pos_pos; auto. apply Z.pow_pos_nonneg; lia. }
  rewrite <- Hm. repeat split.
  - apply round_nearest_even_range.
  - now apply rloc_lower.
  - now apply round_nearest_even_err.
Qed.

(** Away from the subnormal range the exponent follows the input exponent. *)
Lemma round_core_shift mx ex lx k :
  -1074 <= Zdigits2 mx + ex - 53 -> 0 <= k ->
  round_core mx (ex + k) lx = (fst (round_core mx ex lx), snd (round_core mx ex lx) + k).
Proof.
  intros Hn Hk. unfold round_core. cbn [fst snd]. rewrite !fexp64_eq.
  replace (Z.max (Zdigits2 mx + (ex + k) - 53) (-1074) - (ex + k))
    with (Z.max (Zdigits2 mx + ex - 53) (-1074) - ex) by lia.
  f_equal. lia.
Qed.

End RoundValue.

Section DivCore.

Lemma new_location_spec d r :
  0 < d -> 0 <= r < d ->
  forall q, rloc (shr_record_of_loc q (new_location d r)) (q * d + r) d.
Proof.
  intros Hd Hr q. unfold new_location, new_location_even, new_location_odd.
  destruct (Z.even d) eqn:Ev.
  - destruct (Z.eqb_spec r 0) as [->|Hnz].
    + unfold rloc; simpl. lia.
    + destruct (Z.compare_spec (2 * r) d);
        unfold rloc; cbn [shr_record_of_loc shr_m shr_r shr_s]; nia.
  - assert (Hodd : Z.Odd d) by (apply Z.odd_spec; now rewrite <- Z.negb_even, Ev).
    destruct Hodd as [k Hk].
    destruct (Z.eqb_spec r 0) as [->|Hnz].
    + unfold rloc; simpl. lia.
    + destruct (Z.compare_spec (2 * r + 1) d);
        unfold rloc; cbn [shr_record_of_loc shr_m shr_r shr_s]; nia.
Qed.

Lemma shiftl_cases m s :
  0 <= s ->
  match s with Z0 => m | Zpos _ => Z.shiftl m s | Zneg _ => 0 end = m * 2 ^ s.
Proof.
  intros Hs. destruct s as [|p|p]; try lia.
  now rewrite Z.shiftl_mul_pow2 by lia.
Qed.

Lemma div_core_spec my ey mt et :
  let '(q, e', l) := SFdiv_core_binary Float.prec Float.emax (Zpos my) ey (Zpos mt) et in
  let s := ey - et - e' in
  e' = Z.min (fexp64 (Zdigits2 (Zpos my) + ey - (Zdigits2 (Zpos mt) + et))) (ey - et) /\
  0 <= s /\
  q = Zpos my * 2 ^ s / Zpos mt /\
  l = new_location (Zpos mt) ((Zpos my * 2 ^ s) mod Zpos mt) /\
  rloc (shr_record_of_loc q l) (Zpos my * 2 ^ s) (Zpos mt).
Proof.
  unfold SFdiv_core_binary.
  fold (fexp64 (Zdigits2 (Zpos my) + ey - (Zdigits2 (Zpos mt) + et))).
  set (e' := Z.min _ _).
  set (s := ey - et - e').
  assert (Hs : 0 <= s) by (subst s e'; lia).
  rewrite (shiftl_cases (Zpos my) s Hs).
  set (m' := Zpos my * 2 ^ s).
  assert (Hm' : m' = Zpos my * 2 ^ s) by reflexivity.
  clearbody m'.
  pose proof (Z_div_mod m' (Zpos mt) ltac:(lia)) as Hdm.
  destruct (Z.div_eucl m' (Zpos mt)) as [q r] eqn:Ed.
  destruct Hdm as [Heq Hr]. fold s. rewrite <- Hm'.
  repeat split; auto.
  - unfold Z.div. now rewrite Ed.
  - unfold Z.modulo. now rewrite Ed.
  - rewrite Heq. replace (Zpos mt * q + r) with (q * Zpos mt + r) by lia.
    apply new_location_spec; lia.
Qed.

End DivCore.

Section Normal.

Lemma Zdigits2_ge m k : 0 < m -> 2 ^ (k - 1) <= m -> k <= Zdigits2 m.
Proof.
  intros Hm Hk. pose proof (Zdigits2_bounds m Hm) as [_ Hhi].
  destruct (Z_le_gt_dec k (Zdigits2 m)); auto.
  assert (2 ^ Zdigits2 m <= 2 ^ (k - 1)) by (apply Z.pow_le_mono_r; lia). lia.
Qed.

Lemma Zdigits2_le m k : 0 <= k -> 0 <= m < 2 ^ k -> Zdigits2 m <= k.
Proof.
  intros Hk [Hm Hlt]. destruct (Z.eq_dec m 0) as [->|Hnz]; [simpl; lia|].
  pose proof (Zdigits2_bounds m ltac:(lia)) as [Hlo _].
  destruct (Z_le_gt_dec (Zdigits2 m) k); auto.
  assert (2 ^ k <= 2 ^ (Zdigits2 m - 1)) by (apply Z.pow_le_mono_r; lia). lia.
Qed.

Lemma round_core_normal mx ex lx N D :
  0 < D -> rloc (shr_record_of_loc mx lx) N D ->
  2 ^ 52 <= mx -> -1074 <= Zdigits2 mx + ex - 53 ->
  let m2 := fst (round_core mx ex lx) in
  let e1 := snd (round_core mx ex lx) in
  e1 = Zdigits2 mx + ex - 53 /\
  2 ^ 52 <= m2 <= 2 ^ 53 /\
  2 ^ 53 * Z.abs (m2 * (2 ^ (e1 - ex) * D) - N) <= N.
Proof.
  intros HD Hloc Hmx Hn.
  assert (Hd : 53 <= Zdigits2 mx) by (apply Zdigits2_ge; lia).
  assert (Hex : ex <= fexp64 (Zdigits2 mx + ex)) by (rewrite fexp64_eq; lia).
  destruct (round_core_spec mx ex lx N D ltac:(lia) HD Hloc Hex) as (He1 & Hm2 & Hlo & Herr).
  pose proof (shifted_mantissa mx ex ltac:(lia) Hex) as [Hr Hc]. cbn zeta in Hr, Hc.
  rewrite <- He1 in Hr, Hc. cbn zeta.
  set (m2 := fst (round_core mx ex lx)) in *.
  set (e1 := snd (round_core mx ex lx)) in *.
  assert (E : e1 = Zdigits2 mx + ex - 53) by (rewrite He1, fexp64_eq; lia).
  assert (2 ^ 52 <= mx / 2 ^ (e1 - ex)).
  { pose proof (Zdigits2_bounds mx ltac:(lia)) as [Hlo' _].
    apply Z.div_le_lower_bound; [apply Z.pow_pos_nonneg; lia|].
    rewrite <- Z.pow_add_r by lia.
    replace (e1 - ex + 52) with (Zdigits2 mx - 1) by lia. exact Hlo'. }
  set (m1 := mx / 2 ^ (e1 - ex)) in *.
  set (D' := 2 ^ (e1 - ex) * D) in *.
  assert (0 < D').
  { apply Z.mul_pos_pos; auto. apply Z.pow_pos_nonneg; lia. }
  repeat split; try lia.
  assert (2 ^ 52 * D' <= m1 * D') by (apply Z.mul_le_mono_nonneg_r; lia).
  lia.
Qed.

Lemma finish_normal s m2 e1 :
  2 ^ 52 <= m2 <= 2 ^ 53 -> e1 + 1 <= 971 ->
  exists m e, finish s m2 e1 = S754_finite s m e /\
    2 ^ 52 <= Zpos m < 2 ^ 53 /\ e1 <= e <= e1 + 1 /\
    Zpos m * 2 ^ (e - e1) = m2.
Proof.
  intros Hm He. unfold finish.
  destruct (Z.eqb_spec m2 0); [lia|].
  destruct (Z.eqb_spec m2 (2 ^ 53)) as [->|Hc].
  - destruct (Z.leb_spec (e1 + 1) 971); [|lia].
    exists (2 ^ 52)%positive, (e1 + 1). repeat split; try lia.
    replace (e1 + 1 - e1) with 1 by lia. reflexivity.
  - destruct (Z.leb_spec e1 971); [|lia].
    exists (Z.to_pos m2), e1. rewrite Z2Pos.id by lia.
    repeat split; try lia. rewrite Z.sub_diag. lia.
Qed.

Lemma finish_shift s m2 e1 :
  2 ^ 52 <= m2 <= 2 ^ 53 -> e1 + 2 <= 971 ->
  forall m e, finish s m2 e1 = S754_finite s m e ->
  finish s m2 (e1 + 1) = S754_finite s m (e + 1).
Proof.
  intros Hm He m e. unfold finish.
  destruct (Z.eqb_spec m2 0); [lia|].
  destruct (Z.eqb_spec m2 (2 ^ 53)).
  - destruct (Z.leb_spec (e1 + 1) 971); [|lia].
    destruct (Z.leb_spec (e1 + 1 + 1) 971); [|lia]. congruence.
  - destruct (Z.leb_spec e1 971); [|lia].
    destruct (Z.leb_spec (e1 + 1) 971); [|lia]. congruence.
Qed.

Lemma finish_finite s m e : e + 1 <= 971 -> Float.is_finite (finish s m e) = true.
Proof.
  intros He. unfold finish.
  destruct (m =? 0); [reflexivity|].
  destruct (m =? 2 ^ 53).
  - destruct (Z.leb_spec (e + 1) 971); [reflexivity|lia].
  - destruct (Z.leb_spec e 971); [reflexivity|lia].
Qed.

End Normal.

Section Operations.

Lemma mul_round sa ma ea sb mb eb :
  2 ^ 52 <= Zpos mb ->
  let rc := round_core (Zpos (ma * mb)) (ea + eb) loc_Exact in
  Float.mul (S754_finite sa ma ea) (S754_finite sb mb eb) =
  finish (xorb sa sb) (fst rc) (snd rc).
Proof.
  intros Hb rc. unfold Float.mul, SFmul. apply binary_round_aux_core; [lia|].
  assert (53 <= Zdigits2 (Zpos (ma * mb))).
  { apply Zdigits2_ge; [lia|]. rewrite Pos2Z.inj_mul. nia. }
  rewrite fexp64_eq. lia.
Qed.

Lemma div_core_digits my mt s :
  2 ^ 52 <= Zpos mt < 2 ^ 53 -> 0 <= s ->
  let q := Zpos my * 2 ^ s / Zpos mt in
  let dy := Zdigits2 (Zpos my) in
  0 <= q /\ dy + s - 53 <= Zdigits2 q <= Z.max 0 (dy + s - 52).
Proof.
  intros Ht Hs q dy.
  pose proof (Zdigits2_bounds (Zpos my) ltac:(lia)) as [Hlo Hhi]. fold dy in Hlo, Hhi.
  assert (Hdy : 0 < dy) by (subst dy; simpl; lia).
  assert (H2s : 0 < 2 ^ s) by (apply Z.pow_pos_nonneg; lia).
  set (m' := Zpos my * 2 ^ s) in *.
  assert (Hm'lo : 2 ^ (dy + s - 1) <= m').
  { replace (dy + s - 1) with (dy - 1 + s) by lia. rewrite Z.pow_add_r by lia.
    subst m'. apply Z.mul_le_mono_nonneg_r; lia. }
  assert (Hm'hi : m' < 2 ^ (dy + s)).
  { rewrite Z.pow_add_r by lia. subst m'. apply Z.mul_lt_mono_pos_r; lia. }
  assert (Hq0 : 0 <= q) by (subst q; apply Z.div_pos; lia).
  assert (Hqlo : Zpos mt * q <= m') by (subst q; apply Z.mul_div_le; lia).
  assert (Hqhi : m' < Zpos mt * Z.succ q) by (subst q; apply Z.mul_succ_div_gt; lia).
  clearbody q m'. split; [exact Hq0|]. split.
  - assert (Hq1 : q + 1 <= 2 ^ Zdigits2 q).
    { destruct (Z.eq_dec q 0) as [->|]; [simpl; lia|].
      pose proof (Zdigits2_bounds q ltac:(lia)). lia. }
    assert (0 <= Zdigits2 q) by (destruct q; simpl; lia).
    assert (2 ^ (dy + s - 1) < 2 ^ (Zdigits2 q + 53)).
    { rewrite (Z.pow_add_r 2 (Zdigits2 q)) by lia. nia. }
    apply Z.pow_lt_mono_r_iff in H0; lia.
  - destruct (Z_lt_le_dec (dy + s - 52) 0) as [Hneg|Hpos].
    + assert (2 ^ (dy + s) <= 2 ^ 52) by (apply Z.pow_le_mono_r; lia).
      assert (q = 0) by nia. subst q. simpl. lia.
    + assert (q < 2 ^ (dy + s - 52)).
      { assert (2 ^ (dy + s) = 2 ^ (dy + s - 52) * 2 ^ 52).
        { rewrite <- Z.pow_add_r by lia. f_equal. lia. }
        nia. }
      pose proof (Zdigits2_le q (dy + s - 52) Hpos ltac:(lia)). lia.
Qed.

Lemma div_round sy my ey st mt et :
  2 ^ 52 <= Zpos mt < 2 ^ 53 ->
  let e' := Z.min (fexp64 (Zdigits2 (Zpos my) + ey - (53 + et))) (ey - et) in
  let s := ey - et - e' in
  let q := Zpos my * 2 ^ s / Zpos mt in
  let l := new_location (Zpos mt) ((Zpos my * 2 ^ s) mod Zpos mt) in
  rloc (shr_record_of_loc q l) (Zpos my * 2 ^ s) (Zpos mt) /\
  Float.div (S754_finite sy my ey) (S754_finite st mt et) =
  finish (xorb sy st) (fst (round_core q e' l)) (snd (round_core q e' l)).
Proof.
  intros Ht e' s q l.
  assert (Hdt : Zdigits2 (Zpos mt) = 53) by (apply Zdigits2_unique; lia).
  pose proof (div_core_spec my ey mt et) as Hc.
  unfold Float.div, SFdiv.
  destruct (SFdiv_core_binary Float.prec Float.emax (Zpos my) ey (Zpos mt) et)
    as [[q0 e0] l0] eqn:E.
  rewrite Hdt in Hc. destruct Hc as (He0 & Hs & Hq & Hl & Hloc).
  fold e' in He0. subst e0. fold s in Hs, Hq, Hl, Hloc. fold q in Hq. subst q0.
  fold l in Hl. subst l0.
  split; [exact Hloc|].
  destruct (div_core_digits my mt s Ht Hs) as (Hq0 & Hdlo & Hdhi). fold q in Hq0, Hdlo, Hdhi.
  apply binary_round_aux_core; [exact Hq0|].
  subst e' s. rewrite !fexp64_eq in *. lia.
Qed.

End Operations.

Section Doubling.

Lemma round_core_exact m n ex :
  0 <= m -> 0 <= n ->
  fexp64 (Zdigits2 (m * 2 ^ n) + ex) = ex + n ->
  round_core (m * 2 ^ n) ex loc_Exact = (m, ex + n).
Proof.
  intros Hm Hn He. unfold round_core. rewrite He.
  replace (ex + n - ex) with n by lia.
  set (mrs := Nat.iter _ shr_1 _).
  assert (H2n : 0 < 2 ^ n) by (apply Z.pow_pos_nonneg; lia).
  assert (Hsm : shr_m mrs = m).
  { subst mrs. rewrite shr_iter_m by (cbn [shr_record_of_loc shr_m]; nia).
    cbn [shr_record_of_loc shr_m]. rewrite Z2Nat.id by lia.
    now rewrite Z.div_mul by lia. }
  assert (Hl : rloc mrs (m * 2 ^ n) (2 ^ n * 1)).
  { subst mrs.
    replace (2 ^ n * 1) with (2 ^ Z.of_nat (Z.to_nat n) * 1) by (now rewrite Z2Nat.id by lia).
    apply shr_iter_loc.
    - cbn [shr_record_of_loc shr_m]. nia.
    - lia.
    - replace (m * 2 ^ n) with (m * 2 ^ n * 1) at 2 by lia.
      apply rloc_record_of_loc_exact. }
  rewrite Z.mul_1_r in Hl. rewrite <- Hsm in Hl at 1.
  rewrite (rloc_exact mrs (2 ^ n) H2n Hl). cbn [round_nearest_even]. now rewrite Hsm.
Qed.

(** Doubling a normal float away from overflow only bumps the exponent. *)
Lemma mul_two s m e :
  2 ^ 52 <= Zpos m < 2 ^ 53 -> -1075 <= e -> e + 1 <= 971 ->
  Float.mul Float.two (S754_finite s m e) = S754_finite s m (e + 1).
Proof.
  intros Hm Hlo Hhi. unfold Float.two.
  rewrite mul_round by lia. cbn [xorb].
  replace (Zpos (4503599627370496 * m)) with (Zpos m * 2 ^ 52) by lia.
  rewrite round_core_exact; try lia.
  - cbn [fst snd]. unfold finish.
    destruct (Z.eqb_spec (Zpos m) 0); [lia|].
    destruct (Z.eqb_spec (Zpos m) (2 ^ 53)); [lia|].
    replace (-51 + e + 52) with (e + 1) by lia.
    destruct (Z.leb_spec (e + 1) 971); [|lia]. reflexivity.
  - assert (Zdigits2 (Zpos m * 2 ^ 52) = 105) as ->.
    { apply Zdigits2_unique; [lia|].
      change (105 - 1) with (52 + 52). change 105 with (53 + 52).
      rewrite !Z.pow_add_r by lia. nia. }
    rewrite fexp64_eq. lia.
Qed.

Lemma mul_normal s ma ea mb eb :
  2 ^ 52 <= Zpos ma < 2 ^ 53 -> 2 ^ 52 <= Zpos mb < 2 ^ 53 ->
  -1126 <= ea + eb ->
  let rc := round_core (Zpos (ma * mb)) (ea + eb) loc_Exact in
  Float.mul (S754_finite s ma ea) (S754_finite false mb eb) = finish s (fst rc) (snd rc) /\
  -1074 <= Zdigits2 (Zpos (ma * mb)) + (ea + eb) - 53 /\
  ea + eb + 52 <= snd rc <= ea + eb + 53 /\
  2 ^ 52 <= fst rc <= 2 ^ 53 /\
  2 ^ 53 * Z.abs (fst rc * 2 ^ (snd rc - (ea + eb)) - Zpos ma * Zpos mb) <= Zpos ma * Zpos mb.
Proof.
  intros Ha Hb Hlo rc.
  assert (Hprod : 2 ^ 104 <= Zpos (ma * mb) < 2 ^ 106).
  { rewrite Pos2Z.inj_mul. change 104 with (52 + 52). change 106 with (53 + 53).
    rewrite !Z.pow_add_r by lia. nia. }
  assert (Hd : 105 <= Zdigits2 (Zpos (ma * mb)) <= 106).
  { split; [apply Zdigits2_ge|apply Zdigits2_le]; lia. }
  split.
  { rewrite mul_round by lia. now rewrite xorb_false_r. }
  destruct (round_core_normal (Zpos (ma * mb)) (ea + eb) loc_Exact (Zpos (ma * mb) * 1) 1)
    as (He1 & Hm2 & Herr); try lia.
  - apply rloc_record_of_loc_exact.
  - fold rc in He1, Hm2, Herr. rewrite Z.mul_1_r in Herr.
    rewrite Pos2Z.inj_mul in Herr. repeat split; try lia.
Qed.

Lemma div_normal s my ey mt et :
  2 ^ 52 <= Zpos my < 2 ^ 53 -> 2 ^ 52 <= Zpos mt < 2 ^ 53 ->
  -1021 <= ey - et ->
  let q := Zpos my * 2 ^ 53 / Zpos mt in
  let l := new_location (Zpos mt) ((Zpos my * 2 ^ 53) mod Zpos mt) in
  let rc := round_core q (ey - et - 53) l in
  Float.div (S754_finite s my ey) (S754_finite false mt et) = finish s (fst rc) (snd rc) /\
  -1074 <= Zdigits2 q + (ey - et - 53) - 53 /\
  ey - et - 53 <= snd rc <= ey - et - 52 /\
  2 ^ 52 <= fst rc <= 2 ^ 53 /\
  2 ^ 53 * Z.abs (fst rc * (2 ^ (snd rc - (ey - et - 53)) * Zpos mt) - Zpos my * 2 ^ 53)
    <= Zpos my * 2 ^ 53.
Proof.
  intros Hy Ht Hlo q l rc.
  assert (Hdy : Zdigits2 (Zpos my) = 53) by (apply Zdigits2_unique; lia).
  pose proof (div_round s my ey false mt et Ht) as Hr. cbn zeta in Hr.
  rewrite Hdy, fexp64_eq in Hr.
  replace (Z.min (Z.max (53 + ey - (53 + et) - 53) (-1074)) (ey - et)) with (ey - et - 53) in Hr by lia.
  replace (ey - et - (ey - et - 53)) with 53 in Hr by lia.
  fold q in Hr. fold l in Hr. fold rc in Hr. destruct Hr as [Hloc Hdiv].
  rewrite xorb_false_r in Hdiv.
  destruct (div_core_digits my mt 53 Ht ltac:(lia)) as (Hq0 & Hdlo & Hdhi).
  fold q in Hq0, Hdlo, Hdhi. rewrite Hdy in Hdlo, Hdhi.
  assert (Hq : 2 ^ 52 <= q).
  { assert (0 < q) by (destruct q; simpl in *; lia).
    pose proof (Zdigits2_bounds q ltac:(lia)) as [Hl _].
    eapply Z.le_trans; [|exact Hl]. apply Z.pow_le_mono_r; lia. }
  destruct (round_core_normal q (ey - et - 53) l (Zpos my * 2 ^ 53) (Zpos mt))
    as (He1 & Hm2 & Herr); try lia; auto.
  fold rc in He1, Hm2, Herr. repeat split; try lia; auto.
Qed.

End Doubling.

Section Linear.

Lemma mul_shift s ma ea mb eb :
  2 ^ 52 <= Zpos ma < 2 ^ 53 -> 2 ^ 52 <= Zpos mb < 2 ^ 53 ->
  -1126 <= ea + eb -> ea + eb + 55 <= 971 ->
  exists my ey,
    Float.mul (S754_finite s ma ea) (S754_finite false mb eb) = S754_finite s my ey /\
    Float.mul (S754_finite s ma (ea + 1)) (S754_finite false mb eb) = S754_finite s my (ey + 1) /\
    2 ^ 52 <= Zpos my < 2 ^ 53 /\ ea + eb + 52 <= ey <= ea + eb + 54.
Proof.
  intros Ha Hb Hlo Hhi.
  destruct (mul_normal s ma ea mb eb Ha Hb Hlo) as (Hmul & Hn & He1 & Hm2 & _).
  destruct (mul_normal s ma (ea + 1) mb eb Ha Hb ltac:(lia)) as (Hmul' & _).
  replace (ea + 1 + eb) with (ea + eb + 1) in Hmul' by lia.
  rewrite round_core_shift in Hmul' by lia. cbn [fst snd] in Hmul'.
  set (rc := round_core (Zpos (ma * mb)) (ea + eb) loc_Exact) in *.
  destruct (finish_normal s (fst rc) (snd rc) Hm2 ltac:(lia)) as (my & ey & Hf & Hmy & Hey & _).
  exists my, ey. rewrite Hmul, Hmul'. repeat split; try lia; auto.
  apply finish_shift; auto; lia.
Qed.

Lemma div_shift s my ey mt et :
  2 ^ 52 <= Zpos my < 2 ^ 53 -> 2 ^ 52 <= Zpos mt < 2 ^ 53 ->
  -1021 <= ey - et -> ey - et - 50 <= 971 ->
  exists mz ez,
    Float.div (S754_finite s my ey) (S754_finite false mt et) = S754_finite s mz ez /\
    Float.div (S754_finite s my (ey + 1)) (S754_finite false mt et) = S754_finite s mz (ez + 1) /\
    2 ^ 52 <= Zpos mz < 2 ^ 53 /\ ey - et - 53 <= ez <= ey - et - 51.
Proof.
  intros Hy Ht Hlo Hhi.
  destruct (div_normal s my ey mt et Hy Ht Hlo) as (Hdiv & Hn & He1 & Hm2 & _).
  destruct (div_normal s my (ey + 1) mt et Hy Ht ltac:(lia)) as (Hdiv' & _).
  replace (ey + 1 - et - 53) with (ey - et - 53 + 1) in Hdiv' by lia.
  rewrite round_core_shift in Hdiv' by lia. cbn [fst snd] in Hdiv'.
  set (rc := round_core _ (ey - et - 53) _) in *.
  destruct (finish_normal s (fst rc) (snd rc) Hm2 ltac:(lia)) as (mz & ez & Hf & Hmz & Hez & _).
  exists mz, ez. rewrite Hdiv, Hdiv'. repeat split; try lia; auto.
  apply finish_shift; auto; lia.
Qed.

Lemma rate_like_inv r :
  rate_like r = true ->
  exists m e, r = S754_finite false m e /\ 2 ^ 52 <= Zpos m < 2 ^ 53 /\ -67 <= e <= -52.
Proof.
  destruct r as [| | |[] m e]; try discriminate. unfold rate_like.
  rewrite !andb_true_iff. intros [[[H1 H2] H3] H4].
  exists m, e. repeat split; lia.
Qed.

Lemma convert_doubles ma ea rf rt :
  2 ^ 52 <= Zpos ma < 2 ^ 53 -> -1000 <= ea <= 900 ->
  rate_like rf = true -> rate_like rt = true ->
  let a := S754_finite false ma ea in
  Float.div (Float.mul (Float.mul Float.two a) rf) rt =
  Float.mul Float.two (Float.div (Float.mul a rf) rt).
Proof.
  intros Ha Hea Hf Ht a. subst a.
  destruct (rate_like_inv rf Hf) as (mf & ef & -> & Hmf & Hef).
  destruct (rate_like_inv rt Ht) as (mt & et & -> & Hmt & Het).
  rewrite mul_two by lia.
  destruct (mul_shift false ma ea mf ef Ha Hmf ltac:(lia) ltac:(lia))
    as (my & ey & -> & -> & Hmy & Hey).
  destruct (div_shift false my ey mt et Hmy Hmt ltac:(lia) ltac:(lia))
    as (mz & ez & -> & -> & Hmz & Hez).
  rewrite mul_two by lia. reflexivity.
Qed.

End Linear.

Section Values.
#[local] Open Scope Q_scope.

Lemma pow2_pos e : 0 < Float.pow2 e.
Proof. apply Qpower_0_lt. reflexivity. Qed.

Lemma pow2_add a b : Float.pow2 (a + b) == Float.pow2 a * Float.pow2 b.
Proof. apply Qpower_plus. discriminate. Qed.

Lemma pow2_Z n : (0 <= n)%Z -> Float.pow2 n == inject_Z (2 ^ n).
Proof. intros Hn. unfold Float.pow2. now rewrite Zpower_Qpower. Qed.

Lemma to_Q_pos m e : 0 < Float.to_Q (S754_finite false m e).
Proof.
  cbn [Float.to_Q]. apply Qmult_lt_0_compat; [|apply pow2_pos].
  change 0 with (inject_Z 0). rewrite <- Zlt_Qlt. lia.
Qed.

Lemma value_finish m e m2 e1 :
  (Zpos m * 2 ^ (e - e1) = m2)%Z -> (e1 <= e)%Z ->
  Float.to_Q (S754_finite false m e) == inject_Z m2 * Float.pow2 e1.
Proof.
  intros <- He. cbn [Float.to_Q].
  replace e with ((e - e1) + e1)%Z at 1 by lia.
  rewrite pow2_add, pow2_Z by lia. rewrite inject_Z_mult. ring.
Qed.

Lemma scaled_error (d n : Z) (k : Q) :
  0 < k -> (2 ^ 53 * Z.abs d <= n)%Z ->
  Qabs (inject_Z d * k) <= half_ulp * (inject_Z n * k).
Proof.
  intros Hk Hd.
  assert (H1 : (- n <= 2 ^ 53 * d)%Z) by lia.
  assert (H2 : (2 ^ 53 * d <= n)%Z) by lia.
  rewrite Zle_Qle in H1, H2. rewrite inject_Z_mult in H1, H2. rewrite inject_Z_opp in H1.
  change (inject_Z (2 ^ 53)) with (9007199254740992 # 1) in H1, H2.
  apply Qabs_Qle_condition. unfold half_ulp.
  change (2 ^ 53)%positive with 9007199254740992%positive.
  set (x := inject_Z d) in *. set (y := inject_Z n) in *. clearbody x y.
  split; nra.
Qed.

End Values.

Section Errors.
#[local] Open Scope Q_scope.

Lemma mul_error ma ea mb eb :
  (2 ^ 52 <= Zpos ma < 2 ^ 53)%Z -> (2 ^ 52 <= Zpos mb < 2 ^ 53)%Z ->
  (-1126 <= ea + eb)%Z -> (ea + eb + 54 <= 971)%Z ->
  let a := S754_finite false ma ea in
  let b := S754_finite false mb eb in
  exists my ey,
    Float.mul a b = S754_finite false my ey /\
    (2 ^ 52 <= Zpos my < 2 ^ 53)%Z /\ (ea + eb + 52 <= ey <= ea + eb + 54)%Z /\
    Qabs (Float.to_Q (Float.mul a b) - Float.to_Q a * Float.to_Q b)
      <= half_ulp * (Float.to_Q a * Float.to_Q b).
Proof.
  intros Ha Hb Hlo Hhi a b.
  destruct (mul_normal false ma ea mb eb Ha Hb Hlo) as (Hmul & Hn & He1 & Hm2 & Herr).
  set (rc := round_core (Zpos (ma * mb)) (ea + eb) loc_Exact) in *.
  destruct (finish_normal false (fst rc) (snd rc) Hm2 ltac:(lia)) as (my & ey & Hf & Hmy & Hey & Hv).
  exists my, ey. subst a b. rewrite Hmul, Hf. repeat split; try lia.
  rewrite (value_finish my ey (fst rc) (snd rc) Hv) by lia.
  assert (Hp : Float.pow2 (snd rc) ==
               inject_Z (2 ^ (snd rc - (ea + eb))) * Float.pow2 (ea + eb)).
  { rewrite <- pow2_Z, <- pow2_add by lia. now replace (snd rc - (ea + eb) + (ea + eb))%Z with (snd rc) by lia. }
  assert (Hab : Float.to_Q (S754_finite false ma ea) * Float.to_Q (S754_finite false mb eb)
                == inject_Z (Zpos ma * Zpos mb) * Float.pow2 (ea + eb)).
  { cbn [Float.to_Q]. rewrite pow2_add, inject_Z_mult. ring. }
  rewrite Hab, Hp.
  setoid_replace (inject_Z (fst rc) * (inject_Z (2 ^ (snd rc - (ea + eb))) * Float.pow2 (ea + eb))
                  - inject_Z (Zpos ma * Zpos mb) * Float.pow2 (ea + eb))
    with (inject_Z (fst rc * 2 ^ (snd rc - (ea + eb)) - Zpos ma * Zpos mb) * Float.pow2 (ea + eb))
    using relation Qeq.
  - apply scaled_error; [apply pow2_pos|exact Herr].
  - unfold Zminus. rewrite inject_Z_plus, inject_Z_opp, !inject_Z_mult. ring.
Qed.

Lemma div_error my ey mt et :
  (2 ^ 52 <= Zpos my < 2 ^ 53)%Z -> (2 ^ 52 <= Zpos mt < 2 ^ 53)%Z ->
  (-1021 <= ey - et)%Z -> (ey - et - 51 <= 971)%Z ->
  let y := S754_finite false my ey in
  let t := S754_finite false mt et in
  exists mz ez,
    Float.div y t = S754_finite false mz ez /\
    (2 ^ 52 <= Zpos mz < 2 ^ 53)%Z /\ (ey - et - 53 <= ez <= ey - et - 51)%Z /\
    Qabs (Float.to_Q (Float.div y t) - Float.to_Q y / Float.to_Q t)
      <= half_ulp * (Float.to_Q y / Float.to_Q t).
Proof.
  intros Hy Ht Hlo Hhi y t.
  destruct (div_normal false my ey mt et Hy Ht Hlo) as (Hdiv & Hn & He1 & Hm2 & Herr).
  set (rc := round_core _ (ey - et - 53) _) in *.
  destruct (finish_normal false (fst rc) (snd rc) Hm2 ltac:(lia)) as (mz & ez & Hf & Hmz & Hez & Hv).
  exists mz, ez. subst y t. rewrite Hdiv, Hf. repeat split; try lia.
  rewrite (value_finish mz ez (fst rc) (snd rc) Hv) by lia.
  set (e' := (ey - et - 53)%Z) in *.
  assert (Hp : Float.pow2 (snd rc) == inject_Z (2 ^ (snd rc - e')) * Float.pow2 e').
  { rewrite <- pow2_Z, <- pow2_add by lia. now replace (snd rc - e' + e')%Z with (snd rc) by lia. }
  assert (Hey : Float.pow2 ey == inject_Z (2 ^ 53) * Float.pow2 e' * Float.pow2 et).
  { rewrite <- pow2_Z, <- !pow2_add by lia. now replace (53 + e' + et)%Z with ey by lia. }
  pose proof (pow2_pos et) as Hpet. pose proof (pow2_pos e') as Hpe'.
  assert (Hmt : 0 < inject_Z (Zpos mt)).
  { change 0 with (inject_Z 0). rewrite <- Zlt_Qlt. lia. }
  assert (Hyt : Float.to_Q (S754_finite false my ey) / Float.to_Q (S754_finite false mt et)
                == inject_Z (Zpos my * 2 ^ 53) * (Float.pow2 e' / inject_Z (Zpos mt))).
  { cbn [Float.to_Q]. rewrite Hey, inject_Z_mult. field. split; lra. }
  rewrite Hyt, Hp.
  setoid_replace (inject_Z (fst rc) * (inject_Z (2 ^ (snd rc - e')) * Float.pow2 e')
                  - inject_Z (Zpos my * 2 ^ 53) * (Float.pow2 e' / inject_Z (Zpos mt)))
    with (inject_Z (fst rc * (2 ^ (snd rc - e') * Zpos mt) - Zpos my * 2 ^ 53)
          * (Float.pow2 e' / inject_Z (Zpos mt)))
    using relation Qeq.
  - apply scaled_error; [|exact Herr].
    apply Qlt_shift_div_l; lra.
  - unfold Zminus. rewrite inject_Z_plus, inject_Z_opp, !inject_Z_mult. field. lra.
Qed.

Lemma round_trip_error ma ea r :
  (2 ^ 52 <= Zpos ma < 2 ^ 53)%Z -> (-1000 <= ea <= 900)%Z ->
  rate_like r = true ->
  let a := S754_finite false ma ea in
  exists mz ez,
    Float.div (Float.mul a r) r = S754_finite false mz ez /\
    Qabs (Float.to_Q (Float.div (Float.mul a r) r) - Float.to_Q a)
      <= round_trip_tolerance * Float.to_Q a.
Proof.
  intros Ha Hea Hr a. subst a.
  destruct (rate_like_inv r Hr) as (mr & er & -> & Hmr & Her).
  destruct (mul_error ma ea mr er Ha Hmr ltac:(lia) ltac:(lia)) as (my & ey & Hy & Hmy & Hey & Herr1).
  cbn zeta in *. rewrite Hy in *.
  destruct (div_error my ey mr er Hmy Hmr ltac:(lia) ltac:(lia)) as (mz & ez & Hz & Hmz & Hez & Herr2).
  cbn zeta in *. rewrite Hz in *.
  exists mz, ez. split; [reflexivity|].
  pose proof (to_Q_pos ma ea) as HA. pose proof (to_Q_pos mr er) as HR.
  set (A := Float.to_Q (S754_finite false ma ea)) in *.
  set (R := Float.to_Q (S754_finite false mr er)) in *.
  set (Y := Float.to_Q (S754_finite false my ey)) in *.
  set (Z := Float.to_Q (S754_finite false mz ez)) in *.
  assert (HY : Y == (Y / R) * R) by (field; lra).
  set (T := Y / R) in *. clearbody A R Y Z T.
  apply Qabs_Qle_condition in Herr1, Herr2. apply Qabs_Qle_condition.
  unfold half_ulp, round_trip_tolerance in *.
  change (2 ^ 53)%positive with 9007199254740992%positive in *.
  change (2 ^ 52)%positive with 4503599627370496%positive.
  change (2 ^ 106)%positive with 81129638414606681695789005144064%positive.
  destruct Herr1 as [L1 U1], Herr2 as [L2 U2].
  assert (T1 : T - A <= (1 # 9007199254740992) * A) by nra.
  assert (T2 : - ((1 # 9007199254740992) * A) <= T - A) by nra.
  split; nra.
Qed.

End Errors.

Section Finite.

Lemma round_core_range mx ex lx :
  0 <= mx -> ex <= fexp64 (Zdigits2 mx + ex) ->
  0 <= fst (round_core mx ex lx) <= 2 ^ 53 /\
  snd (round_core mx ex lx) = fexp64 (Zdigits2 mx + ex).
Proof.
  intros Hmx Hex.
  pose proof (shifted_mantissa mx ex Hmx Hex) as [Hr _]. cbn zeta in Hr.
  unfold round_core. cbn [fst snd]. split; [|reflexivity].
  set (mrs := Nat.iter _ shr_1 _).
  assert (Hm : shr_m mrs = mx / 2 ^ (fexp64 (Zdigits2 mx + ex) - ex)).
  { subst mrs. rewrite shr_iter_m; rewrite shr_m_record_of_loc; [|lia].
    now rewrite Z2Nat.id by lia. }
  rewrite <- Hm in Hr.
  destruct (round_nearest_even_range (shr_m mrs) (loc_of_shr_record mrs)) as [->| ->]; lia.
Qed.

Lemma finish_cases s m e :
  0 <= m <= 2 ^ 53 -> e + 1 <= 971 ->
  finish s m e = S754_zero s \/
  exists m' e', finish s m e = S754_finite s m' e' /\ Zpos m' < 2 ^ 53 /\ e' <= e + 1.
Proof.
  intros Hm He. unfold finish.
  destruct (Z.eqb_spec m 0); [now left|right].
  destruct (Z.eqb_spec m (2 ^ 53)).
  - destruct (Z.leb_spec (e + 1) 971); [|lia].
    exists (2 ^ 52)%positive, (e + 1). repeat split; lia.
  - destruct (Z.leb_spec e 971); [|lia].
    exists (Z.to_pos m), e. rewrite Z2Pos.id by lia. repeat split; lia.
Qed.

Lemma mul_bounded s ma ea mb eb :
  Zpos ma < 2 ^ 53 -> 2 ^ 52 <= Zpos mb < 2 ^ 53 -> ea + eb + 54 <= 971 ->
  let y := Float.mul (S754_finite s ma ea) (S754_finite false mb eb) in
  y = S754_zero s \/
  exists my ey, y = S754_finite s my ey /\ Zpos my < 2 ^ 53 /\
                ey <= Z.max (ea + eb + 54) (-1073).
Proof.
  intros Ha Hb Hhi y. subst y. rewrite mul_round by lia. rewrite xorb_false_r.
  assert (Hprod : 2 ^ 52 <= Zpos (ma * mb) < 2 ^ 106).
  { rewrite Pos2Z.inj_mul. change 106 with (53 + 53). rewrite Z.pow_add_r by lia. nia. }
  assert (Hd : 53 <= Zdigits2 (Zpos (ma * mb)) <= 106).
  { split; [apply Zdigits2_ge|apply Zdigits2_le]; lia. }
  destruct (round_core_range (Zpos (ma * mb)) (ea + eb) loc_Exact) as [Hm2 He1].
  { lia. } { rewrite fexp64_eq. lia. }
  rewrite fexp64_eq in He1.
  set (rc := round_core _ _ _) in *.
  destruct (finish_cases s (fst rc) (snd rc) Hm2 ltac:(lia)) as [->|(my & ey & -> & Hmy & Hey)].
  - now left.
  - right. exists my, ey. repeat split; lia.
Qed.

Lemma div_bounded s my ey mt et :
  Zpos my < 2 ^ 53 -> 2 ^ 52 <= Zpos mt < 2 ^ 53 -> ey - et - 51 <= 971 ->
  Float.is_finite (Float.div (S754_finite s my ey) (S754_finite false mt et)) = true.
Proof.
  intros Hy Ht Hhi.
  destruct (div_round s my ey false mt et Ht) as [_ ->].
  assert (Hdy : Zdigits2 (Zpos my) <= 53) by (apply Zdigits2_le; lia).
  assert (Hdy0 : 0 < Zdigits2 (Zpos my)) by (simpl; lia).
  set (e' := Z.min _ _). set (s' := ey - et - e').
  assert (Hs : 0 <= s') by (subst s' e'; lia).
  destruct (div_core_digits my mt s' Ht Hs) as (Hq0 & Hdlo & Hdhi).
  set (q := Zpos my * 2 ^ s' / Zpos mt) in *.
  destruct (round_core_range q e' (new_location (Zpos mt) ((Zpos my * 2 ^ s') mod Zpos mt)))
    as [_ He1]; [exact Hq0| |].
  { subst e' s'. rewrite !fexp64_eq in *. lia. }
  apply finish_finite. rewrite He1, fexp64_eq. subst s'. lia.
Qed.

Lemma valid_finite s m e :
  Float.valid (S754_finite s m e) = true ->
  Zpos m < 2 ^ 53 /\ -1074 <= e <= 971 /\ (2 ^ 52 <= Zpos m \/ e = -1074).
Proof.
  unfold Float.valid, valid_binary, bounded, canonical_mantissa.
  rewrite andb_true_iff, Z.eqb_eq, Z.leb_le.
  fold (fexp64 (Zpos (digits2_pos m) + e)). rewrite fexp64_eq.
  change (Float.emax - Float.prec) with 971.
  change (Zpos (digits2_pos m)) with (Zdigits2 (Zpos m)).
  intros [Hc He].
  pose proof (Zdigits2_bounds (Zpos m) ltac:(lia)) as [Hlo Hhi].
  assert (Zdigits2 (Zpos m) <= 53) by lia.
  assert (2 ^ Zdigits2 (Zpos m) <= 2 ^ 53) by (apply Z.pow_le_mono_r; lia).
  repeat split; try lia.
  destruct (Z.eq_dec e (-1074)); [now right|left].
  assert (Zdigits2 (Zpos m) = 53) as E by lia. rewrite E in Hlo. exact Hlo.
Qed.

Lemma leb_exp2_upper s m e k :
  Float.leb (Float.abs (S754_finite s m e)) (Float.exp2 k) = true -> e <= k - 52.
Proof.
  unfold Float.leb, Float.abs, Float.exp2, SFleb, SFabs, SFcompare.
  destruct (Z.compare_spec e (k - 52)); try lia; discriminate.
Qed.

Lemma leb_exp2_lower m e k :
  Float.leb (Float.exp2 k) (S754_finite false m e) = true -> k - 52 <= e.
Proof.
  unfold Float.leb, Float.exp2, SFleb, SFcompare.
  destruct (Z.compare_spec (k - 52) e); try lia; discriminate.
Qed.

Lemma in_range_inv lo hi a :
  -1021 <= lo ->
  Float.in_range lo hi a = true ->
  exists m e, a = S754_finite false m e /\
    2 ^ 52 <= Zpos m < 2 ^ 53 /\ lo - 52 <= e <= hi - 52.
Proof.
  intros Hlo. unfold Float.in_range. rewrite !andb_true_iff. intros [[Hv Hl] Hu].
  destruct a as [[]|[]| |[] m e]; try discriminate.
  exists m, e. split; [reflexivity|].
  apply valid_finite in Hv. apply leb_exp2_lower in Hl.
  apply (leb_exp2_upper false) in Hu. lia.
Qed.

Lemma convert_finite a rf rt :
  Float.valid a = true -> Float.leb (Float.abs a) (Float.exp2 952) = true ->
  rate_like rf = true -> rate_like rt = true ->
  Float.is_finite (Float.div (Float.mul a rf) rt) = true.
Proof.
  intros Hv Hb Hf Ht.
  destruct (rate_like_inv rf Hf) as (mf & ef & -> & Hmf & Hef).
  destruct (rate_like_inv rt Ht) as (mt & et & -> & Hmt & Het).
  destruct a as [s|s| |s ma ea]; try discriminate.
  - reflexivity.
  - apply valid_finite in Hv. apply leb_exp2_upper in Hb.
    destruct (mul_bounded s ma ea mf ef) as [->|(my & ey & -> & Hmy & Hey)]; try lia.
    + reflexivity.
    + apply div_bounded; lia.
Qed.

End Finite.

(** * The offline rate table *)

Section Table.

Lemma OFFLINE_RATES_keys : OFFLINE_RATES_items.*1 = CURRENCIES.
Proof. reflexivity. Qed.

Lemma CURRENCIES_NoDup : NoDup CURRENCIES.
Proof. apply (bool_decide_unpack (NoDup CURRENCIES)). vm_compute. exact I. Qed.

Lemma OFFLINE_RATES_checked :
  forallb (fun c => match OFFLINE_RATES !! c with
                    | Some r => rate_like r
                    | None => false
                    end) CURRENCIES = true.
Proof. vm_compute. reflexivity. Qed.

Lemma OFFLINE_RATES_member c :
  c ∈ CURRENCIES <-> is_Some (OFFLINE_RATES !! c).
Proof.
  split.
  - intros Hc. apply list_elem_of_In in Hc.
    pose proof OFFLINE_RATES_checked as H. rewrite forallb_forall in H.
    specialize (H c Hc). destruct (OFFLINE_RATES !! c); [eauto|discriminate].
  - intros [r Hr]. apply elem_of_list_to_map_2 in Hr.
    rewrite <- OFFLINE_RATES_keys. apply list_elem_of_fmap. exists (c, r). auto.
Qed.

Lemma OFFLINE_RATES_rate_like c r :
  OFFLINE_RATES !! c = Some r -> rate_like r = true.
Proof.
  intros Hr. assert (Hc : c ∈ CURRENCIES) by (apply OFFLINE_RATES_member; eauto).
  apply list_elem_of_In in Hc.
  pose proof OFFLINE_RATES_checked as H. rewrite forallb_forall in H.
  specialize (H c Hc). now rewrite Hr in H.
Qed.

Lemma member_rate c :
  c ∈ CURRENCIES -> exists r, OFFLINE_RATES !! c = Some r /\ rate_like r = true.
Proof.
  intros Hc. apply OFFLINE_RATES_member in Hc as [r Hr].
  exists r. split; [exact Hr|]. eapply OFFLINE_RATES_rate_like; eauto.
Qed.

(** The table as binary64 values: mantissa and exponent of every entry. *)
Lemma OFFLINE_RATES_binary64 :
  OFFLINE_RATES_items =
  [ ("USD", S754_finite false 4503599627370496 (-52));
    ("EUR", S754_finite false 4863887597560136 (-52));
    ("GBP", S754_finite false 5719571526760530 (-52));
    ("JPY", S754_finite false 7839866231326559 (-60));
    ("AUD", S754_finite false 5674535530486825 (-53));
    ("CAD", S754_finite false 6665327448508334 (-53));
    ("CHF", S754_finite false 4908923593833841 (-52));
    ("CNY", S754_finite false 5044031582654956 (-55));
    ("INR", S754_finite false 6917529027641082 (-59));
    ("PKR", S754_finite false 7609281930405190 (-61));
    ("SGD", S754_finite false 6665327448508334 (-53));
    ("NZD", S754_finite false 5314247560297185 (-53));
    ("SEK", S754_finite false 6629298651489370 (-56));
    ("NOK", S754_finite false 6701356245527298 (-56));
    ("RUB", S754_finite false 6917529027641082 (-59));
    ("BRL", S754_finite false 6845471433603154 (-55));
    ("ZAR", S754_finite false 7061644215716938 (-57));
    ("AED", S754_finite false 4863887597560136 (-54));
    ("SAR", S754_finite false 4863887597560136 (-54));
    ("MXN", S754_finite false 8070450532247929 (-57));
    ("TRY", S754_finite false 4899916394579100 (-57));
    ("HKD", S754_finite false 4611686018427388 (-55));
    ("IDR", S754_finite false 4574792530279969 (-66));
    ("THB", S754_finite false 7782220156096217 (-58));
    ("VND", S754_finite false 6198106008766409 (-67));
    ("ILS", S754_finite false 4863887597560136 (-54)) ]%string.
Proof. vm_compute. reflexivity. Qed.

Lemma rate_like_nonzero r : rate_like r = true -> Float.is_zero r = false.
Proof. destruct r as [| | |[] ? ?]; now try discriminate. Qed.

End Table.

(** * The offline converter *)

Section Offline.

(** What a call computes: the two table lookups in order, then the
    division; the world is left as it was. *)
Lemma offline_convert_run w a f t :
  env w = module_globals ->
  offline_convert a f t w =
  (match OFFLINE_RATES !! f with
   | None => Raise (KeyError f)
   | Some rf =>
       match OFFLINE_RATES !! t with
       | None => Raise (KeyError t)
       | Some rt => py_truediv (Float.mul a rf) rt
       end
   end, w).
Proof.
  intros Hw.
  unfold offline_convert, rate_of, read_OFFLINE_RATES, lift, py_float, mbind, M_bind, mret, M_ret.
  rewrite Hw. cbn [g_OFFLINE_RATES module_globals].
  destruct (OFFLINE_RATES !! f) as [rf|]; [|reflexivity].
  rewrite Hw. cbn [g_OFFLINE_RATES module_globals].
  destruct (OFFLINE_RATES !! t) as [rt|]; [|reflexivity].
  destruct (py_truediv (Float.mul a rf) rt); reflexivity.
Qed.

Lemma py_truediv_rate x r :
  rate_like r = true -> py_truediv x r = Ok (Float.div x r).
Proof. intros Hr. unfold py_truediv. now rewrite rate_like_nonzero. Qed.

Lemma offline_convert_ok w a f t rf rt :
  env w = module_globals ->
  OFFLINE_RATES !! f = Some rf -> OFFLINE_RATES !! t = Some rt ->
  offline_convert a f t w = (Ok (Float.div (Float.mul a rf) rt), w).
Proof.
  intros Hw Hf Ht. rewrite offline_convert_run, Hf, Ht by assumption.
  rewrite py_truediv_rate; [reflexivity|]. eapply OFFLINE_RATES_rate_like; eauto.
Qed.

End Offline.

Section OfflineClaims.

Lemma moderate_inv a :
  moderate a = true ->
  a = S754_zero false \/
  exists m e, a = S754_finite false m e /\ 2 ^ 52 <= Zpos m < 2 ^ 53 /\ -1000 <= e <= 900.
Proof.
  intros H. destruct a as [[]|s| |s m e]; auto; cbn [moderate] in H;
    apply in_range_inv in H; try lia; destruct H as (m' & e' & E & Hm & He);
    try discriminate.
  right. exists m', e'. repeat split; auto; lia.
Qed.

(** C1. For codes [f] and [t] of the offline table, with unit values [rf]
    and [rt], [offline_convert a f t] returns [a * rf / rt]: the amount is
    first multiplied by the value of [f], then divided by the value of [t],
    both in binary64 arithmetic. *)
Theorem offline_convert_formula w a f t rf rt :
  env w = module_globals ->
  OFFLINE_RATES !! f = Some rf -> OFFLINE_RATES !! t = Some rt ->
  offline_convert a f t w = (Ok (Float.div (Float.mul a rf) rt), w).
Proof.
  intros Hw Hf Ht.
  rewrite offline_convert_run by assumption. rewrite Hf, Ht.
  (* the divisor is a table value, hence not zero *)
  assert (Hr : rate_like rt = true) by (eapply OFFLINE_RATES_rate_like; eauto).
  unfold py_truediv. rewrite (rate_like_nonzero rt Hr). reflexivity.
Qed.

Lemma offline_convert_formula_witness :
  offline_convert Float.one "USD" "PKR" (boot service_down) =
  (Ok (Float.div (Float.mul Float.one (Float.decimal 10 1)) (Float.decimal 33 4)),
   boot service_down).
Proof.
  apply (offline_convert_formula (boot service_down) Float.one "USD" "PKR");
    vm_compute; reflexivity.
Defined.

(** The two scenarios of the specification: 1 USD is about 303.03 PKR and
    100 EUR are about 15882.35 JPY. *)
Example offline_convert_USD_PKR :
  fst (offline_convert Float.one "USD" "PKR" (boot service_down)) =
  Ok (S754_finite false 5330965468004849 (-44)).
Proof. vm_compute. reflexivity. Qed.

Example offline_convert_EUR_JPY :
  fst (offline_convert (Float.of_Z 100) "EUR" "JPY" (boot service_down)) =
  Ok (S754_finite false 8731415867632942 (-39)).
Proof. vm_compute. reflexivity. Qed.

(** C6. [offline_convert] raises exactly when [frm] or [to] is not a key
    of the offline table, and then it raises [KeyError] for that key; for
    two keys of the table it returns a value; in every case the world
    (globals, lookups, page) is left untouched. *)
Theorem offline_convert_failure_modes w a f t :
  env w = module_globals ->
  ((OFFLINE_RATES !! f = None \/ OFFLINE_RATES !! t = None) <->
     exists e, fst (offline_convert a f t w) = Raise e) /\
  (forall e, fst (offline_convert a f t w) = Raise e ->
     e = KeyError f \/ e = KeyError t) /\
  (is_Some (OFFLINE_RATES !! f) -> is_Some (OFFLINE_RATES !! t) ->
     exists x, fst (offline_convert a f t w) = Ok x) /\
  snd (offline_convert a f t w) = w.
Proof.
  intros Hw. rewrite offline_convert_run by assumption. cbn [fst snd].
  destruct (OFFLINE_RATES !! f) as [rf|] eqn:Hf.
  - destruct (OFFLINE_RATES !! t) as [rt|] eqn:Ht.
    + rewrite py_truediv_rate by (eapply OFFLINE_RATES_rate_like; eauto).
      repeat split.
      * intros [?|?]; discriminate.
      * intros [e He]; discriminate.
      * intros e He; discriminate.
      * eauto.
    + repeat split.
      * eauto.
      * auto.
      * intros e [= <-]. auto.
      * intros _ [x Hx]. discriminate.
  - repeat split.
    + eauto.
    + auto.
    + intros e [= <-]. auto.
    + intros [x Hx]. discriminate.
Qed.

Lemma offline_convert_failure_modes_witness :
  (exists e, fst (offline_convert Float.one "USD" "XXX" (boot service_down)) = Raise e) /\
  snd (offline_convert Float.one "USD" "XXX" (boot service_down)) = boot service_down.
Proof.
  destruct (offline_convert_failure_modes (boot service_down) Float.one "USD" "XXX"
              eq_refl) as (H1 & _ & _ & H4).
  split; [apply H1; right; vm_compute; reflexivity|exact H4].
Defined.

End OfflineClaims.

Section Arithmetic.

Lemma convert_zero rf rt :
  rate_like rf = true -> rate_like rt = true ->
  Float.div (Float.mul (S754_zero false) rf) rt = S754_zero false.
Proof.
  intros Hf Ht.
  destruct (rate_like_inv rf Hf) as (mf & ef & -> & _).
  destruct (rate_like_inv rt Ht) as (mt & et & -> & _). reflexivity.
Qed.

(** C8, as stated, fails at both ends of the binary64 range: for the
    smallest subnormal amount the product with 0.63 rounds up before the
    doubling on one side and after it on the other, and for 2^1023 the
    doubled amount is already infinite. *)
Lemma offline_convert_linear_counterexample :
  fst (offline_convert (Float.mul Float.two Float.min_subnormal) "AUD" "USD"
         (boot service_down))
    <> twice (fst (offline_convert Float.min_subnormal "AUD" "USD" (boot service_down)))
  /\
  fst (offline_convert (Float.mul Float.two (Float.exp2 1023)) "USD" "GBP"
         (boot service_down))
    <> twice (fst (offline_convert (Float.exp2 1023) "USD" "GBP" (boot service_down))).
Proof. split; vm_compute; discriminate. Qed.

(** C8, amended. For codes [f] and [t] of the table and an amount that is
    zero or between 2^-948 and 2^952, converting the doubled amount gives
    exactly the double of the converted amount. *)
Theorem offline_convert_linear w a f t :
  env w = module_globals ->
  f ∈ CURRENCIES -> t ∈ CURRENCIES ->
  moderate a = true ->
  fst (offline_convert (Float.mul Float.two a) f t w) =
  twice (fst (offline_convert a f t w)).
Proof.
  intros Hw Hf Ht Ha.
  destruct (member_rate f Hf) as (rf & Hrf & Hlf).
  destruct (member_rate t Ht) as (rt & Hrt & Hlt).
  rewrite !(offline_convert_ok w _ f t rf rt) by assumption. cbn [fst twice]. f_equal.
  destruct (moderate_inv a Ha) as [->|(m & e & -> & Hm & He)].
  - change (Float.mul Float.two (S754_zero false)) with (S754_zero false).
    rewrite convert_zero by assumption. reflexivity.
  - now apply convert_doubles.
Qed.

Lemma offline_convert_linear_witness :
  fst (offline_convert (Float.mul Float.two Float.one) "EUR" "JPY" (boot service_down)) =
  twice (fst (offline_convert Float.one "EUR" "JPY" (boot service_down))).
Proof.
  apply (offline_convert_linear (boot service_down) Float.one "EUR" "JPY");
    [reflexivity| | |reflexivity];
    apply (bool_decide_unpack (_ ∈ CURRENCIES)); vm_compute; exact I.
Defined.

(** C9, as stated, fails for the largest finite amount, whose product with
    1.27 overflows, so that the round trip returns infinity; and the
    smallest subnormal amount comes back as zero. *)
Lemma offline_convert_identity_counterexample :
  fst (offline_convert Float.max_float "GBP" "GBP" (boot service_down)) = Ok Float.inf /\
  fst (offline_convert Float.min_subnormal "VND" "VND" (boot service_down))
    = Ok (S754_zero false).
Proof. split; vm_compute; reflexivity. Qed.

(** C9, amended. For a code [c] of the table and an amount that is zero or
    between 2^-948 and 2^952, [offline_convert a c c] returns a finite
    float whose distance to [a] is at most [(2^-52 + 2^-106) * a]. *)
Theorem offline_convert_identity w a c :
  env w = module_globals ->
  c ∈ CURRENCIES ->
  moderate a = true ->
  exists x,
    offline_convert a c c w = (Ok x, w) /\
    Float.is_finite x = true /\
    (Qabs (Float.to_Q x - Float.to_Q a) <= round_trip_tolerance * Float.to_Q a)%Q.
Proof.
  intros Hw Hc Ha.
  destruct (member_rate c Hc) as (r & Hr & Hl).
  rewrite (offline_convert_ok w a c c r r) by assumption.
  eexists. split; [reflexivity|].
  destruct (moderate_inv a Ha) as [->|(m & e & -> & Hm & He)].
  - rewrite convert_zero by assumption. split; [reflexivity|]. vm_compute. discriminate.
  - destruct (round_trip_error m e r Hm He Hl) as (mz & ez & Hz & Herr).
    split; [now rewrite Hz|exact Herr].
Qed.

Lemma offline_convert_identity_witness :
  exists x,
    offline_convert Float.one "PKR" "PKR" (boot service_down) = (Ok x, boot service_down) /\
    Float.is_finite x = true /\
    (Qabs (Float.to_Q x - Float.to_Q Float.one) <= round_trip_tolerance * Float.to_Q Float.one)%Q.
Proof.
  apply (offline_convert_identity (boot service_down) Float.one "PKR");
    [reflexivity| |reflexivity].
  apply (bool_decide_unpack (_ ∈ CURRENCIES)); vm_compute; exact I.
Defined.

(** C10, as stated, fails for a large amount: 2^1023 US dollars in
    Vietnamese dong overflow to infinity. *)
Lemma offline_convert_finite_counterexample :
  Float.valid (Float.exp2 1023) = true /\
  Float.is_finite (Float.exp2 1023) = true /\
  fst (offline_convert (Float.exp2 1023) "USD" "VND" (boot service_down)) = Ok Float.inf /\
  Float.is_finite Float.inf = false.
Proof. repeat split; vm_compute; reflexivity. Qed.

(** C10, amended. For two codes of the table the divisor is a positive
    table value, so [offline_convert] returns a float for every float
    amount and never raises; the float is finite whenever the amount is
    a valid binary64 of magnitude at most 2^952. *)
Theorem offline_convert_total w a f t :
  env w = module_globals ->
  f ∈ CURRENCIES -> t ∈ CURRENCIES ->
  exists x,
    offline_convert a f t w = (Ok x, w) /\
    (Float.valid a = true -> Float.leb (Float.abs a) (Float.exp2 952) = true ->
     Float.is_finite x = true).
Proof.
  intros Hw Hf Ht.
  destruct (member_rate f Hf) as (rf & Hrf & Hlf).
  destruct (member_rate t Ht) as (rt & Hrt & Hlt).
  rewrite (offline_convert_ok w a f t rf rt) by assumption.
  eexists. split; [reflexivity|]. intros Hv Hb. now apply convert_finite.
Qed.

Lemma offline_convert_total_witness :
  exists x,
    offline_convert (Float.exp2 952) "USD" "VND" (boot service_down)
      = (Ok x, boot service_down) /\
    Float.is_finite x = true.
Proof.
  destruct (offline_convert_total (boot service_down) (Float.exp2 952) "USD" "VND")
    as (x & Hx & Hfin);
    [reflexivity
    |apply (bool_decide_unpack (_ ∈ CURRENCIES)); vm_compute; exact I
    |apply (bool_decide_unpack (_ ∈ CURRENCIES)); vm_compute; exact I
    |].
  exists x. split; [exact Hx|]. apply Hfin; vm_compute; reflexivity.
Defined.

End Arithmetic.

(** * Frame properties: what a computation leaves alone *)

Section Frames.
Context {T : Type} (proj : world -> T).

Lemma frames_ret {A} (a : A) : frames proj (mret a).
Proof. intros w. reflexivity. Qed.

Lemma frames_lift {A} (r : res A) : frames proj (lift r).
Proof. intros w. reflexivity. Qed.

Lemma frames_bind {A B} (m : M A) (f : A -> M B) :
  frames proj m -> (forall a, frames proj (f a)) -> frames proj (m ≫= f).
Proof.
  intros Hm Hf w. unfold mbind, M_bind. specialize (Hm w).
  destruct (m w) as [[a|e] w']; cbn [snd] in *; [|exact Hm].
  now rewrite Hf.
Qed.

Lemma frames_try_except {A} (body : M A) (handler : exn -> M A) :
  frames proj body -> (forall e, frames proj (handler e)) ->
  frames proj (try_except body handler).
Proof.
  intros Hb Hh w. unfold try_except. specialize (Hb w).
  destruct (body w) as [[a|e] w']; cbn [snd] in *; [exact Hb|].
  now rewrite Hh.
Qed.

Lemma frames_for_in {A B} (xs : list A) (body : B -> A -> M B) acc :
  (forall acc x, frames proj (body acc x)) -> frames proj (for_in xs body acc).
Proof.
  intros Hb. revert acc. induction xs as [|x xs IH]; intros acc; cbn [for_in].
  - apply frames_ret.
  - apply frames_bind; auto.
Qed.

Lemma frames_if {A} (b : bool) (m1 m2 : M A) :
  frames proj m1 -> frames proj m2 -> frames proj (if b then m1 else m2).
Proof. now destruct b. Qed.

Lemma frames_read_OFFLINE_RATES : frames proj read_OFFLINE_RATES.
Proof. intros w. reflexivity. Qed.

Lemma frames_read_CURRENCIES : frames proj read_CURRENCIES.
Proof. intros w. reflexivity. Qed.

End Frames.

Section FramedOperations.

Lemma render_env x : frames env (render x).
Proof. intros w. reflexivity. Qed.

Lemma render_lookups x : frames lookups (render x).
Proof. intros w. reflexivity. Qed.

Lemma render_service x : frames service (render x).
Proof. intros w. reflexivity. Qed.

Lemma remote_env q : frames env (remote q).
Proof. intros w. reflexivity. Qed.

Lemma remote_service q : frames service (remote q).
Proof. intros w. reflexivity. Qed.

Lemma remote_page q : frames page (remote q).
Proof. intros w. reflexivity. Qed.

End FramedOperations.

Ltac frame :=
  repeat first
    [ progress intros
    | apply frames_bind | apply frames_try_except | apply frames_for_in
    | apply frames_if | apply frames_ret | apply frames_lift
    | apply frames_read_OFFLINE_RATES | apply frames_read_CURRENCIES
    | apply render_env | apply render_lookups | apply render_service
    | apply remote_env | apply remote_service | apply remote_page
    | match goal with |- frames _ (match ?x with _ => _ end) => destruct x end ].

Section FramedFunctions.

Lemma offline_convert_frames {T} (proj : world -> T) a f t :
  frames proj (offline_convert a f t).
Proof. unfold offline_convert, rate_of. frame. Qed.

Lemma offline_attempt_env i h : frames env (offline_attempt i h).
Proof. unfold offline_attempt. frame. Qed.


Lemma offline_rows_frames {T} (proj : world -> T) i : frames proj (offline_rows i).
Proof. unfold offline_rows. frame. Qed.

Lemma try_live_convert_env a f t : frames env (try_live_convert a f t).
Proof. unfold try_live_convert, _convert_via_api. frame. Qed.

Lemma try_live_table_env a f : frames env (try_live_table a f).
Proof. unfold try_live_table, _fetch_latest_rates. frame. Qed.

Lemma on_convert_env i : frames env (on_convert i).
Proof.
  unfold on_convert. frame.
Qed.

Lemma on_show_table_env i : frames env (on_show_table i).
Proof.
  unfold on_show_table. frame.
Qed.

Lemma script_env i : frames env (script i).
Proof. unfold script. frame. Qed.

End FramedFunctions.

(** * The handlers *)

Section Handlers.

Lemma bind_run {A B} (m : M A) (f : A -> M B) w :
  (m ≫= f) w =
  match m w with
  | (Ok a, w') => f a w'
  | (Raise e, w') => (Raise e, w')
  end.
Proof. reflexivity. Qed.


Lemma offline_attempt_run i h w :
  offline_attempt i h w =
  (Ok tt,
   rendered (match fst (offline_convert (amount i) (from_curr i) (to_curr i) w) with
             | Ok x => st_success x (to_curr i) offline
             | Raise e => h e
             end) w).
Proof.
  unfold offline_attempt, try_except, mbind, M_bind.
  pose proof (offline_convert_frames id (amount i) (from_curr i) (to_curr i) w) as E.
  unfold id in E.
  destruct (offline_convert (amount i) (from_curr i) (to_curr i) w) as [[x|e] w'];
    cbn [fst snd] in *; subst w'; reflexivity.
Qed.

(** The value of [offline_convert] does not depend on what was looked up
    or rendered before. *)
Lemma offline_convert_value w w' a f t :
  env w = module_globals -> env w' = module_globals ->
  fst (offline_convert a f t w') = fst (offline_convert a f t w).
Proof. intros Hw Hw'. now rewrite !offline_convert_run. Qed.

Lemma on_convert_offline_only i w :
  use_offline_only i = true ->
  on_convert i w = offline_attempt i st_error_offline w.
Proof. intros H. unfold on_convert. now rewrite H. Qed.

Lemma on_convert_live_failed i w e :
  env w = module_globals ->
  use_offline_only i = false ->
  fst (try_live_convert (amount i) (from_curr i) (to_curr i) w) = Raise e ->
  on_convert i w =
  offline_attempt i st_error_both
    (rendered st_warning_live_failed
       (snd (try_live_convert (amount i) (from_curr i) (to_curr i) w))).
Proof.
  intros Hw Hm He. unfold on_convert. rewrite Hm.
  unfold try_except at 1. unfold mbind at 1, M_bind at 1.
  destruct (try_live_convert (amount i) (from_curr i) (to_curr i) w) as [r w1].
  cbn [fst snd] in *. subst r. reflexivity.
Qed.

(** C2. When offline-only mode is off and the live conversion attempt
    raises, the handler renders the fallback warning and then either the
    value of [offline_convert], tagged as offline, or, when that call
    raises too, one error for both failures; nothing else is rendered. *)
Theorem convert_falls_back_to_offline i w e :
  env w = module_globals ->
  use_offline_only i = false ->
  fst (try_live_convert (amount i) (from_curr i) (to_curr i) w) = Raise e ->
  fst (on_convert i w) = Ok tt /\
  page (snd (on_convert i w)) =
    page w ++
    [ st_warning_live_failed;
      match fst (offline_convert (amount i) (from_curr i) (to_curr i) w) with
      | Ok x => st_success x (to_curr i) offline
      | Raise e2 => st_error_both e2
      end ].
Proof.
  intros Hw Hm He.
  rewrite (on_convert_live_failed i w e Hw Hm He).
  set (w1 := snd (try_live_convert (amount i) (from_curr i) (to_curr i) w)).
  assert (Hw1 : env w1 = module_globals).
  { subst w1. now rewrite try_live_convert_env. }
  assert (Hp1 : page w1 = page w).
  { subst w1. unfold try_live_convert, _convert_via_api.
    assert (F : frames page (try_live_convert (amount i) (from_curr i) (to_curr i))).
    { unfold try_live_convert, _convert_via_api. frame. }
    apply F. }
  rewrite offline_attempt_run. cbn [fst snd rendered page].
  rewrite Hp1, <- app_assoc. cbn [app].
  rewrite (offline_convert_value w) by (auto; exact Hw1). auto.
Qed.

Lemma convert_falls_back_to_offline_witness :
  fst (on_convert (sample_widgets false) (boot service_down)) = Ok tt /\
  page (snd (on_convert (sample_widgets false) (boot service_down))) =
    [ st_warning_live_failed;
      st_success (S754_finite false 5330965468004849 (-44)) "PKR" offline ].
Proof.
  exact (convert_falls_back_to_offline (sample_widgets false) (boot service_down)
           RequestException eq_refl eq_refl eq_refl).
Defined.

(** A loop whose body appends one row and leaves the world alone. *)
Lemma for_in_rows {A B} (xs : list A) (g : A -> B)
    (body : list B -> A -> M (list B)) acc w :
  (forall acc x, x ∈ xs -> body acc x w = (Ok (acc ++ [g x]), w)) ->
  for_in xs body acc w = (Ok (acc ++ map g xs), w).
Proof.
  revert acc. induction xs as [|x xs IH]; intros acc Hb; cbn [for_in map].
  - now rewrite app_nil_r.
  - rewrite bind_run, Hb by apply list_elem_of_here.
    rewrite IH, <- app_assoc; [reflexivity|].
    intros acc' y Hy. apply Hb. now apply list_elem_of_further.
Qed.

Lemma offline_rows_run i w :
  env w = module_globals -> from_curr i ∈ CURRENCIES ->
  exists xs,
    Forall2 (fun c x => fst (offline_convert (amount i) (from_curr i) c w) = Ok x)
      CURRENCIES xs /\
    offline_rows i w = (Ok (zip CURRENCIES (Amount <$> xs)), w).
Proof.
  intros Hw Hf. destruct (member_rate _ Hf) as (rf & Hrf & _).
  set (value := fun c => Float.div (Float.mul (amount i) rf)
                           (default Float.one (OFFLINE_RATES !! c))).
  assert (Hval : forall c, c ∈ CURRENCIES ->
            offline_convert (amount i) (from_curr i) c w = (Ok (value c), w)).
  { intros c Hc. destruct (member_rate _ Hc) as (rc & Hrc & _).
    rewrite (offline_convert_ok w _ _ _ rf rc) by assumption.
    subst value. cbn beta. now rewrite Hrc. }
  exists (value <$> CURRENCIES). split.
  - apply Forall2_fmap_r, Forall_Forall2_diag, Forall_forall.
    intros c Hc. now rewrite Hval.
  - unfold offline_rows. rewrite bind_run. unfold read_CURRENCIES.
    rewrite Hw. cbn [g_CURRENCIES module_globals].
    rewrite (for_in_rows CURRENCIES (fun c => (c, Amount (value c)))).
    + reflexivity.
    + intros acc c Hc. now rewrite bind_run, Hval.
Qed.

Lemma on_show_table_offline_only i w rows :
  use_offline_only i = true ->
  offline_rows i (rendered (st_header (amount i) (from_curr i)) (rendered st_markdown_rule w))
    = (Ok rows, rendered (st_header (amount i) (from_curr i)) (rendered st_markdown_rule w)) ->
  on_show_table i w =
  (Ok tt, rendered (st_table rows)
            (rendered (st_header (amount i) (from_curr i)) (rendered st_markdown_rule w))).
Proof.
  intros Hm Hrows. unfold on_show_table. rewrite Hm.
  rewrite bind_run. cbn [render]. rewrite bind_run. cbn [render].
  rewrite bind_run, Hrows. reflexivity.
Qed.



(** C3. In offline-only mode a run of the script sends no lookup to the
    remote service, whatever the service would answer: neither handler
    calls [try_live_convert] or [try_live_table].  The Convert handler
    renders the value of [offline_convert], tagged as offline, or its
    error, and the table handler renders one offline value per code. *)
Theorem offline_only_never_looks_up i w :
  env w = module_globals ->
  use_offline_only i = true ->
  lookups (snd (script i w)) = lookups w /\
  lookups (snd (on_convert i w)) = lookups w /\
  lookups (snd (on_show_table i w)) = lookups w /\
  on_convert i w =
    (Ok tt,
     rendered (match fst (offline_convert (amount i) (from_curr i) (to_curr i) w) with
               | Ok x => st_success x (to_curr i) offline
               | Raise e => st_error_offline e
               end) w) /\
  (from_curr i ∈ CURRENCIES ->
   exists xs,
     Forall2 (fun c x => fst (offline_convert (amount i) (from_curr i) c w) = Ok x)
       CURRENCIES xs /\
     on_show_table i w =
       (Ok tt, rendered (st_table (zip CURRENCIES (Amount <$> xs)))
                 (rendered (st_header (amount i) (from_curr i))
                    (rendered st_markdown_rule w)))).
Proof.
  intros Hw Hm.
  assert (Hc : frames lookups (on_convert i)).
  { unfold on_convert. rewrite Hm. frame. }
  assert (Ht : frames lookups (on_show_table i)).
  { unfold on_show_table. rewrite Hm. frame. }
  assert (Hs : frames lookups (script i)).
  { unfold script.
    do 2 (apply frames_bind; [apply render_lookups|intros _]).
    apply frames_bind; [destruct (convert_btn i); [exact Hc|apply frames_ret]|intros _].
    apply frames_bind; [destruct (show_table i); [exact Ht|apply frames_ret]|intros _].
    frame. }
  repeat split; auto.
  - rewrite on_convert_offline_only by assumption. apply offline_attempt_run.
  - intros Hf.
    set (w2 := rendered (st_header (amount i) (from_curr i)) (rendered st_markdown_rule w)).
    destruct (offline_rows_run i w2 Hw Hf) as (xs & Hxs & Hrows).
    exists xs. split.
    + eapply Forall2_impl; [exact Hxs|]. intros c x <-.
      symmetry. now apply offline_convert_value.
    + now apply on_show_table_offline_only.
Qed.

Lemma offline_only_never_looks_up_witness :
  lookups (snd (script (sample_widgets true) (boot sample_service))) = [] /\
  lookups (snd (on_convert (sample_widgets true) (boot sample_service))) = [] /\
  on_convert (sample_widgets true) (boot sample_service) =
    (Ok tt,
     rendered (st_success (S754_finite false 5330965468004849 (-44)) "PKR" offline)
       (boot sample_service)).
Proof.
  destruct (offline_only_never_looks_up (sample_widgets true) (boot sample_service)
              eq_refl eq_refl) as (H1 & H2 & _ & H4 & _).
  split; [exact H1|]. split; [exact H2|exact H4].
Defined.

End Handlers.

(** * The live snapshot *)

Section Snapshot.

Lemma assoc_elem k (items : list (string * json)) v :
  assoc k items = Some v -> (k, v) ∈ items.
Proof.
  induction items as [|[k' v'] items IH]; cbn [assoc]; [discriminate|].
  destruct (String.eqb_spec k k') as [->|Hne].
  - intros [= ->]. apply list_elem_of_here.
  - intros H. apply list_elem_of_further. auto.
Qed.

Lemma py_mul_number amount r x :
  json_number r = Some x -> r <> JNull /\ py_mul amount r = Ok (Float.mul amount x).
Proof.
  destruct r; cbn [json_number]; try discriminate.
  - unfold py_mul, float_of_int. cbn zeta.
    destruct (Float.is_finite (Float.of_Z n)); [|discriminate].
    intros [= <-]. split; [discriminate|reflexivity].
  - intros [= <-]. split; [discriminate|reflexivity].
Qed.

(** The run of [try_live_table] on a well-formed response. *)
Lemma try_live_table_run w amount base items rates :
  env w = module_globals ->
  service w (Latest base) = Ok (JObj items) ->
  default (JObj []) (assoc "rates" items) = JObj rates ->
  Forall (fun kv => is_Some (json_number kv.2)) rates ->
  try_live_table amount base w =
  (Ok (default JNull (assoc "date" items),
       map (fun c => (c, snapshot_value_spec amount base rates c)) CURRENCIES),
   looked_up (Latest base) w).
Proof.
  intros Hw Hs Hr Hn.
  unfold try_live_table.
  rewrite bind_run. unfold _fetch_latest_rates, remote. rewrite Hs.
  rewrite bind_run. unfold lift at 1, py_get_or_empty. rewrite Hr.
  rewrite bind_run. unfold read_CURRENCIES.
  cbn [env looked_up]. rewrite Hw. cbn [g_CURRENCIES module_globals].
  rewrite bind_run.
  rewrite (for_in_rows CURRENCIES
             (fun c => (c, snapshot_value_spec amount base rates c))).
  - reflexivity.
  - intros acc cur _. unfold snapshot_value_spec.
    rewrite bind_run.
    destruct (String.eqb_spec cur base) as [->|Hne].
    + rewrite decide_True by reflexivity. reflexivity.
    + rewrite decide_False by assumption.
      rewrite bind_run. unfold lift at 1, py_get.
      destruct (assoc cur rates) as [r|] eqn:Hc; cbn [default from_option id].
      * apply assoc_elem in Hc. rewrite Forall_forall in Hn.
        destruct (Hn _ Hc) as [x Hx]. cbn [snd] in Hx.
        destruct (py_mul_number amount r x Hx) as [Hnn Hm].
        rewrite Hx. cbn [mbind option_bind].
        destruct r; try congruence; rewrite bind_run; unfold lift; rewrite Hm; reflexivity.
      * reflexivity.
Qed.

End Snapshot.

Section SnapshotClaims.

Lemma sample_latest_well_formed : well_formed_latest sample_latest sample_rates.
Proof.
  exists [ ("base", JStr "USD"); ("date", JStr "2024-01-01");
           ("rates", JObj sample_rates) ]%string.
  split; [reflexivity|]. split; [reflexivity|].
  repeat constructor; eexists; vm_compute; reflexivity.
Qed.

(** C4. On a well-formed response the live snapshot has, for every
    enumerated code, the row the specification describes: the base code
    carries the input amount itself, a code missing from the response
    carries the unavailable marker, and any other code carries the amount
    multiplied by the returned rate. *)
Theorem snapshot_rows w amount base data rates :
  env w = module_globals ->
  service w (Latest base) = Ok data ->
  well_formed_latest data rates ->
  exists date rows,
    try_live_table amount base w = (Ok (date, rows), looked_up (Latest base) w) /\
    rows = map (fun c => (c, snapshot_value_spec amount base rates c)) CURRENCIES /\
    forall c, c ∈ CURRENCIES ->
      (c = base -> (c, Some amount) ∈ rows) /\
      (c <> base -> assoc c rates = None -> (c, None) ∈ rows) /\
      (c <> base -> forall r x, assoc c rates = Some r -> json_number r = Some x ->
         (c, Some (Float.mul amount x)) ∈ rows).
Proof.
  intros Hw Hs (items & -> & Hr & Hn).
  rewrite (try_live_table_run w amount base items rates Hw Hs Hr Hn).
  eexists _, _. split; [reflexivity|]. split; [reflexivity|].
  intros c Hc.
  assert (Hrow : (c, snapshot_value_spec amount base rates c)
                 ∈ map (fun c => (c, snapshot_value_spec amount base rates c)) CURRENCIES).
  { apply (list_elem_of_fmap_2 (fun c => (c, snapshot_value_spec amount base rates c))).
    exact Hc. }
  unfold snapshot_value_spec in Hrow.
  repeat split.
  - intros ->. now rewrite decide_True in Hrow by reflexivity.
  - intros Hne Ha. now rewrite decide_False, Ha in Hrow by assumption.
  - intros Hne r x Ha Hx. now rewrite decide_False, Ha, Hx in Hrow by assumption.
Qed.

Lemma snapshot_rows_witness :
  exists date rows,
    try_live_table Float.one "USD" (boot sample_service)
      = (Ok (date, rows), looked_up (Latest "USD") (boot sample_service)) /\
    rows = map (fun c => (c, snapshot_value_spec Float.one "USD" sample_rates c)) CURRENCIES /\
    forall c, c ∈ CURRENCIES ->
      (c = "USD"%string -> (c, Some Float.one) ∈ rows) /\
      (c <> "USD"%string -> assoc c sample_rates = None -> (c, None) ∈ rows) /\
      (c <> "USD"%string -> forall r x, assoc c sample_rates = Some r ->
         json_number r = Some x -> (c, Some (Float.mul Float.one x)) ∈ rows).
Proof.
  exact (snapshot_rows (boot sample_service) Float.one "USD" sample_latest sample_rates
           eq_refl eq_refl sample_latest_well_formed).
Defined.

(** C5. On a well-formed response the live snapshot has exactly 26 rows,
    one per enumerated code and in the order of [CURRENCIES]; each row holds
    a float or the unavailable marker, and the table rendered from it has
    one line per code as well. *)
Theorem snapshot_complete w amount base data rates :
  env w = module_globals ->
  service w (Latest base) = Ok data ->
  well_formed_latest data rates ->
  exists date rows,
    fst (try_live_table amount base w) = Ok (date, rows) /\
    length rows = 26%nat /\
    rows.*1 = CURRENCIES /\
    (pretty rows).*1 = CURRENCIES.
Proof.
  intros Hw Hs (items & -> & Hr & Hn).
  rewrite (try_live_table_run w amount base items rates Hw Hs Hr Hn).
  eexists _, _. split; [reflexivity|].
  assert (Hk : forall l : list string,
             (map (fun c => (c, snapshot_value_spec amount base rates c)) l).*1 = l).
  { induction l as [|c l IH]; [reflexivity|]. cbn. f_equal. exact IH. }
  split; [now rewrite length_map|]. split; [apply Hk|].
  unfold pretty. rewrite <- (Hk CURRENCIES) at 2.
  generalize (map (fun c => (c, snapshot_value_spec amount base rates c)) CURRENCIES).
  induction l as [|[c v] l IH]; [reflexivity|]. cbn. f_equal. exact IH.
Qed.

Lemma snapshot_complete_witness :
  exists date rows,
    fst (try_live_table Float.one "USD" (boot sample_service)) = Ok (date, rows) /\
    length rows = 26%nat /\
    rows.*1 = CURRENCIES /\
    (pretty rows).*1 = CURRENCIES.
Proof.
  exact (snapshot_complete (boot sample_service) Float.one "USD" sample_latest sample_rates
           eq_refl eq_refl sample_latest_well_formed).
Defined.

(** The sample response, run: EUR and JPY are converted, the base keeps the
    amount, the other 23 codes are unavailable. *)
Example snapshot_sample :
  (snd <$> fst (let '(r, _) := try_live_table Float.one "USD" (boot sample_service) in
                match r with Ok x => (Some x, tt) | Raise _ => (None, tt) end)) =
  Some (map (fun c => (c, if String.eqb c "USD" then Some Float.one
                          else if String.eqb c "EUR" then Some (Float.decimal 92 2)
                          else if String.eqb c "JPY" then Some (Float.of_Z 150)
                          else None)) CURRENCIES).
Proof. vm_compute. reflexivity. Qed.

End SnapshotClaims.

Section TableClaims.

(** C7. The offline table has an entry for each of the 26 enumerated
    codes and for no other key; every entry is a finite positive binary64;
    the entry of USD is exactly 1.0; and no function of the script, nor a
    whole run of it, changes the module globals that hold the table. *)
Theorem offline_rates_invariant :
  length CURRENCIES = 26%nat /\
  NoDup CURRENCIES /\
  (forall c, c ∈ CURRENCIES <-> is_Some (OFFLINE_RATES !! c)) /\
  (forall c r, OFFLINE_RATES !! c = Some r ->
     Float.is_finite r = true /\ Float.is_pos r = true /\ (0 < Float.to_Q r)%Q) /\
  OFFLINE_RATES !! "USD"%string = Some Float.one /\
  (forall a f t w, env (snd (offline_convert a f t w)) = env w) /\
  (forall a f t w, env (snd (try_live_convert a f t w)) = env w) /\
  (forall a f w, env (snd (try_live_table a f w)) = env w) /\
  (forall i w, env (snd (script i w)) = env w).
Proof.
  split; [reflexivity|]. split; [apply CURRENCIES_NoDup|].
  split; [apply OFFLINE_RATES_member|]. split.
  { intros c r Hr. apply OFFLINE_RATES_rate_like in Hr.
    destruct (rate_like_inv r Hr) as (m & e & -> & _).
    repeat split. apply to_Q_pos. }
  split; [vm_compute; reflexivity|].
  repeat split; intros.
  - apply offline_convert_frames.
  - apply try_live_convert_env.
  - apply try_live_table_env.
  - apply script_env.
Qed.

End TableClaims.

(** * More about the arithmetic of the offline converter *)

Section ExactSteps.

Lemma Zdigits2_shift m n :
  0 < m -> 0 <= n -> Zdigits2 (m * 2 ^ n) = Zdigits2 m + n.
Proof.
  intros Hm Hn. pose proof (Zdigits2_bounds m Hm) as [Hlo Hhi].
  assert (0 < Zdigits2 m) by (destruct m; simpl; lia).
  assert (0 < 2 ^ n) by (apply Z.pow_pos_nonneg; lia).
  apply Zdigits2_unique; [nia|].
  replace (Zdigits2 m + n - 1) with (Zdigits2 m - 1 + n) by lia.
  rewrite !Z.pow_add_r by lia. nia.
Qed.

Lemma valid_canonical s m e :
  Float.valid (S754_finite s m e) = true ->
  fexp64 (Zdigits2 (Zpos m) + e) = e /\ e <= 971.
Proof.
  unfold Float.valid, valid_binary, bounded, canonical_mantissa.
  rewrite andb_true_iff, Z.eqb_eq, Z.leb_le. auto.
Qed.

Lemma finish_keep s m e :
  Zpos m < 2 ^ 53 -> e <= 971 -> finish s (Zpos m) e = S754_finite s m e.
Proof.
  intros Hm He. unfold finish.
  destruct (Z.eqb_spec (Zpos m) 0); [lia|].
  destruct (Z.eqb_spec (Zpos m) (2 ^ 53)); [lia|].
  destruct (Z.leb_spec e 971); [reflexivity|lia].
Qed.

(** Multiplying a valid float by 1.0 returns it unchanged. *)
Lemma mul_one a : Float.valid a = true -> Float.mul a Float.one = a.
Proof.
  intros Hv. destruct a as [[]|[]| |s m e]; try reflexivity.
  destruct (valid_canonical s m e Hv) as [Hc He].
  pose proof (valid_finite s m e Hv) as (Hm & _ & _).
  unfold Float.one. rewrite mul_round by lia. rewrite xorb_false_r.
  replace (Zpos (m * 4503599627370496)) with (Zpos m * 2 ^ 52) by lia.
  rewrite round_core_exact; try lia.
  - cbn [fst snd]. replace (e + -52 + 52) with e by lia. now apply finish_keep.
  - rewrite Zdigits2_shift by lia.
    replace (Zdigits2 (Zpos m) + 52 + (e + -52)) with (Zdigits2 (Zpos m) + e) by lia.
    lia.
Qed.

(** Dividing a valid float by 1.0 returns it unchanged. *)
Lemma div_one x : Float.valid x = true -> Float.div x Float.one = x.
Proof.
  intros Hv. destruct x as [[]|[]| |s m e]; try reflexivity.
  destruct (valid_canonical s m e Hv) as [Hc He].
  pose proof (valid_finite s m e Hv) as (Hm & _ & _).
  unfold Float.one.
  destruct (div_round s m e false 4503599627370496 (-52) ltac:(lia)) as [_ ->].
  rewrite xorb_false_r. rewrite fexp64_eq in *.
  set (e' := Z.min _ _). set (n := e - e').
  assert (Hn : 0 <= n) by (subst n e'; lia).
  replace (e - -52 - e') with (n + 52) by (subst n; lia).
  assert (Hq : Zpos m * 2 ^ (n + 52) = Zpos m * 2 ^ n * Zpos 4503599627370496).
  { rewrite Z.pow_add_r by lia. change (Zpos 4503599627370496) with (2 ^ 52). ring. }
  rewrite Hq, Z.div_mul, Z.mod_mul by lia.
  change (new_location (Zpos 4503599627370496) 0) with loc_Exact.
  rewrite round_core_exact; try lia.
  - cbn [fst snd]. replace (e' + n) with e by (subst n; lia). now apply finish_keep.
  - rewrite Zdigits2_shift, fexp64_eq by lia.
    replace (Zdigits2 (Zpos m) + n + e') with (Zdigits2 (Zpos m) + e) by (subst n; lia).
    subst n. lia.
Qed.

Lemma round_core_canonical mx ex lx :
  0 <= mx -> ex <= fexp64 (Zdigits2 mx + ex) ->
  0 <= fst (round_core mx ex lx) <= 2 ^ 53 /\
  -1074 <= snd (round_core mx ex lx) /\
  (snd (round_core mx ex lx) = -1074 \/ 2 ^ 52 <= fst (round_core mx ex lx)).
Proof.
  intros Hmx Hex.
  pose proof (shifted_mantissa mx ex Hmx Hex) as [Hr Hc]. cbn zeta in Hr, Hc.
  destruct (round_core_range mx ex lx Hmx Hex) as [Hm2 He1].
  split; [exact Hm2|]. rewrite He1. split; [rewrite fexp64_eq; lia|].
  destruct Hc as [Hc|Hc]; [now left|right].
  unfold round_core. cbn [fst].
  set (mrs := Nat.iter _ shr_1 _).
  assert (Hm : shr_m mrs = mx / 2 ^ (fexp64 (Zdigits2 mx + ex) - ex)).
  { subst mrs. rewrite shr_iter_m; rewrite shr_m_record_of_loc; [|lia].
    now rewrite Z2Nat.id by lia. }
  rewrite <- Hm in Hc.
  destruct (round_nearest_even_range (shr_m mrs) (loc_of_shr_record mrs)) as [->| ->]; lia.
Qed.

Lemma finish_valid s m e :
  0 <= m <= 2 ^ 53 -> -1074 <= e -> (e = -1074 \/ 2 ^ 52 <= m) ->
  Float.valid (finish s m e) = true.
Proof.
  intros Hm He Hc. unfold finish.
  destruct (Z.eqb_spec m 0); [reflexivity|].
  destruct (Z.eqb_spec m (2 ^ 53)).
  - destruct (Z.leb_spec (e + 1) 971); [|reflexivity].
    unfold Float.valid, valid_binary, bounded, canonical_mantissa.
    apply andb_true_iff. split; [|apply Z.leb_le; exact H].
    apply Z.eqb_eq. fold (fexp64 (Zpos (digits2_pos (2 ^ 52)) + (e + 1))).
    change (Zpos (digits2_pos (2 ^ 52))) with 53. rewrite fexp64_eq. lia.
  - destruct (Z.leb_spec e 971); [|reflexivity].
    unfold Float.valid, valid_binary, bounded, canonical_mantissa.
    apply andb_true_iff. split; [|apply Z.leb_le; exact H].
    apply Z.eqb_eq. fold (fexp64 (Zpos (digits2_pos (Z.to_pos m)) + e)).
    change (Zpos (digits2_pos (Z.to_pos m))) with (Zdigits2 (Zpos (Z.to_pos m))).
    rewrite Z2Pos.id by lia. rewrite fexp64_eq.
    destruct Hc as [->|Hc].
    + pose proof (Zdigits2_le m 53 ltac:(lia) ltac:(lia)). lia.
    + rewrite (Zdigits2_unique m 53) by lia. lia.
Qed.

(** The product of any float with a table rate is a valid binary64. *)
Lemma mul_rate_valid a r :
  rate_like r = true -> Float.valid (Float.mul a r) = true.
Proof.
  intros Hr. destruct (rate_like_inv r Hr) as (mr & er & -> & Hmr & _).
  destruct a as [s|s| |s m e]; try reflexivity.
  rewrite mul_round by lia.
  assert (H53 : 53 <= Zdigits2 (Zpos (m * mr))).
  { apply Zdigits2_ge; [lia|]. rewrite Pos2Z.inj_mul. nia. }
  destruct (round_core_canonical (Zpos (m * mr)) (e + er) loc_Exact) as (H1 & H2 & H3);
    [lia|rewrite fexp64_eq; lia|].
  now apply finish_valid.
Qed.

End ExactSteps.

Section BaseCurrency.

Lemma USD_rate : OFFLINE_RATES !! "USD"%string = Some Float.one.
Proof. vm_compute. reflexivity. Qed.

(** X1. Conversions through the base currency round once: for a valid
    amount, converting from a table code to USD is a single multiplication
    by its rate, converting from USD to a table code is a single division,
    and converting USD to USD returns the amount bit for bit. *)
Theorem offline_convert_via_USD w a c rc :
  env w = module_globals ->
  Float.valid a = true ->
  OFFLINE_RATES !! c = Some rc ->
  offline_convert a c "USD" w = (Ok (Float.mul a rc), w) /\
  offline_convert a "USD" c w = (Ok (Float.div a rc), w) /\
  offline_convert a "USD" "USD" w = (Ok a, w).
Proof.
  intros Hw Hv Hc.
  assert (Hr : rate_like rc = true) by (eapply OFFLINE_RATES_rate_like; eauto).
  rewrite (offline_convert_ok w a c "USD" rc Float.one Hw Hc USD_rate).
  rewrite (offline_convert_ok w a "USD" c Float.one rc Hw USD_rate Hc).
  rewrite (offline_convert_ok w a "USD" "USD" Float.one Float.one Hw USD_rate USD_rate).
  rewrite (div_one (Float.mul a rc)) by now apply mul_rate_valid.
  rewrite !(mul_one a Hv). rewrite (div_one a Hv). auto.
Qed.

Lemma offline_convert_via_USD_witness :
  offline_convert Float.max_float "GBP" "USD" (boot service_down)
    = (Ok (Float.mul Float.max_float (Float.decimal 127 2)), boot service_down) /\
  offline_convert Float.max_float "USD" "GBP" (boot service_down)
    = (Ok (Float.div Float.max_float (Float.decimal 127 2)), boot service_down) /\
  offline_convert Float.max_float "USD" "USD" (boot service_down)
    = (Ok Float.max_float, boot service_down).
Proof.
  apply (offline_convert_via_USD (boot service_down) Float.max_float "GBP");
    vm_compute; reflexivity.
Defined.

Lemma finish_nonneg m e : nonneg (finish false m e) = true.
Proof.
  unfold finish. destruct (m =? 0); [reflexivity|].
  destruct (m =? 2 ^ 53); [destruct (e + 1 <=? 971)|destruct (e <=? 971)]; reflexivity.
Qed.

Lemma mul_rate_nonneg a r :
  nonneg a = true -> rate_like r = true -> nonneg (Float.mul a r) = true.
Proof.
  intros Ha Hr. destruct (rate_like_inv r Hr) as (mr & er & -> & Hmr & _).
  destruct a as [[]|[]| |[] m e]; try discriminate; try reflexivity.
  rewrite mul_round by lia. apply finish_nonneg.
Qed.

Lemma div_rate_nonneg x r :
  nonneg x = true -> rate_like r = true -> nonneg (Float.div x r) = true.
Proof.
  intros Hx Hr. destruct (rate_like_inv r Hr) as (mr & er & -> & Hmr & _).
  destruct x as [[]|[]| |[] m e]; try discriminate; try reflexivity.
  destruct (div_round false m e false mr er Hmr) as [_ ->]. apply finish_nonneg.
Qed.

(** X2. For two codes of the table and an amount that is not negative and
    not a NaN, [offline_convert] returns a float that is again not negative
    and not a NaN (possibly zero or infinity); a zero amount gives zero. *)
Theorem offline_convert_nonneg w a f t :
  env w = module_globals ->
  f ∈ CURRENCIES -> t ∈ CURRENCIES ->
  nonneg a = true ->
  exists x,
    offline_convert a f t w = (Ok x, w) /\
    nonneg x = true /\
    (Float.is_zero a = true -> Float.is_zero x = true).
Proof.
  intros Hw Hf Ht Ha.
  destruct (member_rate f Hf) as (rf & Hrf & Hlf).
  destruct (member_rate t Ht) as (rt & Hrt & Hlt).
  rewrite (offline_convert_ok w a f t rf rt) by assumption.
  eexists. split; [reflexivity|]. split.
  - apply div_rate_nonneg; [apply mul_rate_nonneg|]; assumption.
  - intros Hz. destruct a as [[]| | |]; try discriminate.
    now rewrite convert_zero.
Qed.

Lemma offline_convert_nonneg_witness :
  exists x,
    offline_convert Float.inf "EUR" "JPY" (boot service_down) = (Ok x, boot service_down) /\
    nonneg x = true /\
    (Float.is_zero Float.inf = true -> Float.is_zero x = true).
Proof.
  apply (offline_convert_nonneg (boot service_down) Float.inf "EUR" "JPY");
    [reflexivity| | |reflexivity];
    apply (bool_decide_unpack (_ ∈ CURRENCIES)); vm_compute; exact I.
Defined.

End BaseCurrency.

(** * More about the live functions *)

Section LiveConvert.

Lemma try_except_run {A} (body : M A) (handler : exn -> M A) w :
  try_except body handler w =
  match body w with
  | (Ok a, w') => (Ok a, w')
  | (Raise e, w') => handler e w'
  end.
Proof. reflexivity. Qed.

(** The run of [try_live_convert], by the answer of the service. *)
Lemma try_live_convert_run a f t w :
  try_live_convert a f t w =
  (match service w (Convert a f t) with
   | Raise e => Raise e
   | Ok (JObj items) =>
       match assoc "result" items with
       | None | Some JNull => Raise ValueError
       | Some _ => Ok (JObj items)
       end
   | Ok _ => Raise AttributeError
   end, looked_up (Convert a f t) w).
Proof.
  unfold try_live_convert. rewrite bind_run. unfold _convert_via_api, remote.
  destruct (service w (Convert a f t)) as [data|e]; [|reflexivity].
  rewrite bind_run. unfold lift at 1, py_get.
  destruct data as [| | | | | |items]; try reflexivity.
  destruct (assoc "result" items) as [v|]; [|reflexivity].
  destruct v; reflexivity.
Qed.

(** X3. The live conversion succeeds exactly when the service answers with
    an object whose ["result"] is present and not null, and it then returns
    that answer unchanged.  Otherwise it raises: the error of the service
    itself, [AttributeError] for an answer that is not an object, and
    [ValueError] for a missing or null result. *)
Theorem try_live_convert_outcome a f t w :
  (forall d, fst (try_live_convert a f t w) = Ok d <->
     service w (Convert a f t) = Ok d /\
     exists items v, d = JObj items /\ assoc "result" items = Some v /\ v <> JNull) /\
  (forall e, service w (Convert a f t) = Raise e ->
     fst (try_live_convert a f t w) = Raise e) /\
  (forall d, service w (Convert a f t) = Ok d -> (forall items, d <> JObj items) ->
     fst (try_live_convert a f t w) = Raise AttributeError) /\
  (forall items, service w (Convert a f t) = Ok (JObj items) ->
     default JNull (assoc "result" items) = JNull ->
     fst (try_live_convert a f t w) = Raise ValueError).
Proof.
  rewrite try_live_convert_run. cbn [fst].
  destruct (service w (Convert a f t)) as [data|e0].
  - split; [|split; [|split]].
    + intros d. split.
      * intros H. assert (exists items, data = JObj items) as [items ->].
        { destruct data; try discriminate. eauto. }
        destruct (assoc "result" items) as [v|] eqn:Hv; [|discriminate].
        destruct v; try discriminate; injection H as <-;
          (split; [reflexivity|]); eexists _, _; repeat split; eauto; discriminate.
      * intros [[= <-] (items & v & -> & Hv & Hnn)]. rewrite Hv.
        destruct v; congruence.
    + discriminate.
    + intros d [= <-] Hno. destruct data; try reflexivity. now destruct (Hno items).
    + intros items [= ->] Hnull.
      destruct (assoc "result" items) as [v|]; [|reflexivity].
      cbn in Hnull. now subst v.
  - split; [|split; [|split]]; try discriminate.
    + intros d. split; [discriminate|]. intros [H _]. discriminate.
    + now intros e [= <-].
Qed.


End LiveConvert.

(** * More about the Convert handler *)

Section ConvertHandler.

Lemma try_live_convert_ok a f t w items v x :
  service w (Convert a f t) = Ok (JObj items) ->
  assoc "result" items = Some v -> py_format_f v = Ok x ->
  try_live_convert a f t w = (Ok (JObj items), looked_up (Convert a f t) w).
Proof.
  intros Hs Hv Hx. rewrite try_live_convert_run, Hs, Hv.
  destruct v; try reflexivity. discriminate.
Qed.

(** The [try] body of the live branch, once the live call has returned an
    object with a printable result: what is left is the caption. *)
Lemma live_body_run i w items v x info :
  service w (Convert (amount i) (from_curr i) (to_curr i)) = Ok (JObj items) ->
  assoc "result" items = Some v -> py_format_f v = Ok x ->
  default (JObj []) (assoc "info" items) = JObj info ->
  forall handler,
  try_except
    (api_data ← try_live_convert (amount i) (from_curr i) (to_curr i);
     val ← lift (py_getitem api_data "result");
     info ← lift (py_get_or_empty api_data "info");
     rate ← lift (py_get info "rate");
     date ← lift (py_get api_data "date");
     shown ← lift (py_format_f val);
     render (st_success shown (to_curr i) live);;
     if py_truthy rate then
       r ← lift (py_format_f rate);
       render (st_caption_rate (from_curr i) r (to_curr i) date)
     else mret tt) handler w =
  let w1 := rendered (st_success x (to_curr i) live)
              (looked_up (Convert (amount i) (from_curr i) (to_curr i)) w) in
  let rate := default JNull (assoc "rate" info) in
  if py_truthy rate then
    match py_format_f rate with
    | Ok r => (Ok tt, rendered (st_caption_rate (from_curr i) r (to_curr i)
                                  (default JNull (assoc "date" items))) w1)
    | Raise e => handler e w1
    end
  else (Ok tt, w1).
Proof.
  intros Hs Hv Hx Hi handler. rewrite try_except_run, bind_run.
  rewrite (try_live_convert_ok _ _ _ w items v x Hs Hv Hx).
  rewrite bind_run. unfold lift at 1, py_getitem. rewrite Hv.
  rewrite bind_run. unfold lift at 1, py_get_or_empty. rewrite Hi.
  rewrite bind_run. unfold lift at 1, py_get at 1.
  rewrite bind_run. unfold lift at 1, py_get at 1.
  rewrite bind_run. unfold lift at 1. rewrite Hx.
  rewrite bind_run. cbn [render]. cbn zeta.
  destruct (py_truthy (default JNull (assoc "rate" info))); [|reflexivity].
  rewrite bind_run. unfold lift at 1.
  destruct (py_format_f (default JNull (assoc "rate" info))); reflexivity.
Qed.


(** The value of [offline_convert] depends on the module globals only. *)
Lemma offline_convert_env_value w w' a f t :
  env w' = env w ->
  fst (offline_convert a f t w') = fst (offline_convert a f t w).
Proof.
  intros He.
  unfold offline_convert, rate_of, read_OFFLINE_RATES, lift, py_float, mbind, M_bind, mret, M_ret.
  rewrite He.
  destruct (g_OFFLINE_RATES (env w) !! f) as [rf|]; [|reflexivity].
  rewrite He.
  destruct (g_OFFLINE_RATES (env w) !! t) as [rt|]; [|reflexivity].
  destruct (py_truediv (Float.mul a rf) rt); reflexivity.
Qed.

Lemma fallback_run i w' :
  (render st_warning_live_failed;; offline_attempt i st_error_both) w' =
  (Ok tt,
   rendered (match fst (offline_convert (amount i) (from_curr i) (to_curr i) w') with
             | Ok y => st_success y (to_curr i) offline
             | Raise e => st_error_both e
             end) (rendered st_warning_live_failed w')).
Proof.
  rewrite bind_run. cbn [render]. rewrite offline_attempt_run.
  now rewrite (offline_convert_env_value w').
Qed.



(** X6. When the live amount has been rendered and the rate caption then
    fails to format (a truthy rate that is a string, a list or an object),
    the handler still falls back: the page shows the live amount, the
    fallback warning and the offline answer, one after the other. *)
Theorem convert_blends_after_caption_failure i w items v x info e :
  use_offline_only i = false ->
  service w (Convert (amount i) (from_curr i) (to_curr i)) = Ok (JObj items) ->
  assoc "result" items = Some v -> py_format_f v = Ok x ->
  default (JObj []) (assoc "info" items) = JObj info ->
  py_truthy (default JNull (assoc "rate" info)) = true ->
  py_format_f (default JNull (assoc "rate" info)) = Raise e ->
  fst (on_convert i w) = Ok tt /\
  page (snd (on_convert i w)) =
    page w ++
    [ st_success x (to_curr i) live;
      st_warning_live_failed;
      match fst (offline_convert (amount i) (from_curr i) (to_curr i) w) with
      | Ok y => st_success y (to_curr i) offline
      | Raise e2 => st_error_both e2
      end ].
Proof.
  intros Hm Hs Hv Hx Hi Ht He. unfold on_convert. rewrite Hm.
  rewrite (live_body_run i w items v x info Hs Hv Hx Hi). cbn zeta.
  rewrite Ht, He, fallback_run. cbn [fst snd rendered looked_up page].
  rewrite <- !app_assoc. cbn [app].
  rewrite (offline_convert_env_value w) by reflexivity. auto.
Qed.

Lemma convert_blends_after_caption_failure_witness :
  fst (on_convert (sample_widgets false)
         (boot (convert_service sample_convert_items_bad_rate))) = Ok tt /\
  page (snd (on_convert (sample_widgets false)
               (boot (convert_service sample_convert_items_bad_rate)))) =
    [ st_success (Float.decimal 2785 1) "PKR" live;
      st_warning_live_failed;
      st_success (S754_finite false 5330965468004849 (-44)) "PKR" offline ].
Proof.
  apply (convert_blends_after_caption_failure (sample_widgets false)
           (boot (convert_service sample_convert_items_bad_rate))
           sample_convert_items_bad_rate
           (JFloat (Float.decimal 2785 1)) (Float.decimal 2785 1)
           [ ("rate", JStr "278.5") ]%string ValueError);
    reflexivity.
Defined.


Lemma try_live_convert_returns a f t w items v :
  service w (Convert a f t) = Ok (JObj items) ->
  assoc "result" items = Some v -> v <> JNull ->
  try_live_convert a f t w = (Ok (JObj items), looked_up (Convert a f t) w).
Proof.
  intros Hs Hv Hn. rewrite try_live_convert_run, Hs, Hv.
  destruct v; try reflexivity. congruence.
Qed.

(** X7. A live answer whose result cannot be printed as a number (a
    string, a list, an object, an int too large for a float) counts as a
    failure: nothing of it is rendered, and the handler shows the fallback
    warning and the offline answer. *)
Theorem convert_unprintable_result_falls_back i w items v e :
  use_offline_only i = false ->
  service w (Convert (amount i) (from_curr i) (to_curr i)) = Ok (JObj items) ->
  assoc "result" items = Some v -> v <> JNull ->
  py_format_f v = Raise e ->
  fst (on_convert i w) = Ok tt /\
  page (snd (on_convert i w)) =
    page w ++
    [ st_warning_live_failed;
      match fst (offline_convert (amount i) (from_curr i) (to_curr i) w) with
      | Ok y => st_success y (to_curr i) offline
      | Raise e2 => st_error_both e2
      end ].
Proof.
  intros Hm Hs Hv Hn He.
  set (w0 := looked_up (Convert (amount i) (from_curr i) (to_curr i)) w).
  assert (Hrun : on_convert i w =
                 (render st_warning_live_failed;; offline_attempt i st_error_both) w0).
  { unfold on_convert. rewrite Hm.
    rewrite try_except_run, bind_run.
    rewrite (try_live_convert_returns _ _ _ w items v Hs Hv Hn).
    rewrite bind_run. unfold lift at 1, py_getitem. rewrite Hv.
    rewrite bind_run. unfold lift at 1, py_get_or_empty.
    rewrite bind_run. unfold lift at 1.
    destruct (py_get (default (JObj []) (assoc "info" items)) "rate") as [rate|e1];
      [|reflexivity].
    rewrite bind_run. unfold lift at 1, py_get.
    rewrite bind_run. unfold lift at 1. rewrite He. reflexivity. }
  rewrite Hrun, fallback_run. cbn [fst snd rendered page].
  rewrite <- app_assoc. cbn [app].
  rewrite (offline_convert_env_value w w0) by reflexivity. auto.
Qed.

Lemma convert_unprintable_result_falls_back_witness :
  fst (on_convert (sample_widgets false)
         (boot (convert_service sample_convert_items_bad_result))) = Ok tt /\
  page (snd (on_convert (sample_widgets false)
               (boot (convert_service sample_convert_items_bad_result)))) =
    [ st_warning_live_failed;
      st_success (S754_finite false 5330965468004849 (-44)) "PKR" offline ].
Proof.
  apply (convert_unprintable_result_falls_back (sample_widgets false)
           (boot (convert_service sample_convert_items_bad_result))
           sample_convert_items_bad_result (JStr "278.5") ValueError);
    try reflexivity.
  discriminate.
Defined.


(** The four ways the live branch can end. *)
Lemma on_convert_live_shapes i w :
  use_offline_only i = false ->
  let w0 := looked_up (Convert (amount i) (from_curr i) (to_curr i)) w in
  let fallback := (render st_warning_live_failed;; offline_attempt i st_error_both) in
  on_convert i w = fallback w0 \/
  exists x,
    let w1 := rendered (st_success x (to_curr i) live) w0 in
    on_convert i w = (Ok tt, w1) \/
    (exists r d, on_convert i w =
                 (Ok tt, rendered (st_caption_rate (from_curr i) r (to_curr i) d) w1)) \/
    on_convert i w = fallback w1.
Proof.
  intros Hm w0 fallback.
  set (P := fun res : res unit * world =>
    res = fallback w0 \/
    exists x,
      let w1 := rendered (st_success x (to_curr i) live) w0 in
      res = (Ok tt, w1) \/
      (exists r d, res = (Ok tt, rendered (st_caption_rate (from_curr i) r (to_curr i) d) w1)) \/
      res = fallback w1).
  change (P (on_convert i w)).
  unfold on_convert. rewrite Hm.
  rewrite try_except_run, bind_run, try_live_convert_run. fold w0.
  destruct (service w (Convert (amount i) (from_curr i) (to_curr i))) as [data|e0];
    [|now left].
  destruct data as [| | | | | |items]; try (now left).
  destruct (assoc "result" items) as [v|] eqn:Hv; [|now left].
  assert (Hcase : v = JNull \/ v <> JNull) by (destruct v; auto; right; discriminate).
  destruct Hcase as [->|Hn]; [now left|].
  replace (match v with JNull => Raise ValueError | _ => Ok (JObj items) end)
    with (@Ok json (JObj items)) by (destruct v; congruence).
  rewrite bind_run. unfold lift at 1, py_getitem. rewrite Hv.
  rewrite bind_run. unfold lift at 1, py_get_or_empty.
  rewrite bind_run. unfold lift at 1.
  destruct (py_get (default (JObj []) (assoc "info" items)) "rate") as [rate|e1];
    [|now left].
  rewrite bind_run. unfold lift at 1, py_get.
  rewrite bind_run. unfold lift at 1.
  destruct (py_format_f v) as [x|e2]; [|now left].
  right. exists x. cbn zeta.
  rewrite bind_run. cbn [render].
  destruct (py_truthy rate); [|now left].
  rewrite bind_run. unfold lift at 1.
  destruct (py_format_f rate) as [r|e3].
  - right. left. eexists _, _. reflexivity.
  - right. right. reflexivity.
Qed.

(** X8. A click on Convert never ends in an uncaught exception, whatever
    the widgets hold and whatever the service answers, and it always
    leaves an answer on the page: the handler appends between one and three
    elements, one of which is a converted amount or an error message. *)
Theorem convert_always_answers i w :
  fst (on_convert i w) = Ok tt /\
  exists l,
    page (snd (on_convert i w)) = page w ++ l /\
    existsb is_answer l = true /\
    (1 <= length l <= 3)%nat.
Proof.
  destruct (use_offline_only i) eqn:Hm.
  - rewrite on_convert_offline_only, offline_attempt_run by assumption.
    split; [reflexivity|]. eexists [_]. split; [reflexivity|].
    split; [|cbn; lia].
    destruct (fst (offline_convert (amount i) (from_curr i) (to_curr i) w)); reflexivity.
  - assert (Hfb : forall w', fst ((render st_warning_live_failed;;
                                    offline_attempt i st_error_both) w') = Ok tt /\
               exists a, is_answer a = true /\
                 page (snd ((render st_warning_live_failed;;
                               offline_attempt i st_error_both) w')) =
                 page w' ++ [st_warning_live_failed; a]).
    { intros w'. rewrite fallback_run. split; [reflexivity|].
      eexists. split; [|cbn [snd rendered page]; rewrite <- app_assoc; reflexivity].
      destruct (fst (offline_convert (amount i) (from_curr i) (to_curr i) w')); reflexivity. }
    destruct (on_convert_live_shapes i w Hm) as [->|[x [->|[(r & d & ->)| ->]]]].
    + destruct (Hfb (looked_up (Convert (amount i) (from_curr i) (to_curr i)) w))
        as (H1 & a & Ha & ->).
      split; [exact H1|]. eexists [_; _]. split; [reflexivity|].
      split; [cbn; now rewrite Ha|cbn; lia].
    + split; [reflexivity|]. eexists [_]. split; [reflexivity|]. split; [reflexivity|cbn; lia].
    + split; [reflexivity|]. eexists [_; _].
      split; [cbn [snd rendered looked_up page]; now rewrite <- app_assoc|].
      split; [reflexivity|cbn; lia].
    + destruct (Hfb (rendered (st_success x (to_curr i) live)
                       (looked_up (Convert (amount i) (from_curr i) (to_curr i)) w)))
        as (H1 & a & Ha & ->).
      split; [exact H1|]. eexists [_; _; _].
      split; [cbn [rendered looked_up page]; now rewrite <- app_assoc|].
      split; [reflexivity|cbn; lia].
Qed.

End ConvertHandler.

(** * Computations that only read the globals, and the growing page *)

Section Pure.
Context (g : globals).

Lemma pure_ret {A} (a : A) : pure_in g (mret a).
Proof. intros w _. split; [reflexivity|]. intros w' _. reflexivity. Qed.

Lemma pure_lift {A} (r : res A) : pure_in g (lift r).
Proof. intros w _. split; [reflexivity|]. intros w' _. reflexivity. Qed.

Lemma pure_bind {A B} (m : M A) (f : A -> M B) :
  pure_in g m -> (forall a, pure_in g (f a)) -> pure_in g (m ≫= f).
Proof.
  intros Hm Hf w Hw. destruct (Hm w Hw) as [Hs Hv].
  rewrite bind_run. destruct (m w) as [r w1] eqn:E. cbn [snd fst] in *. subst w1.
  split.
  - destruct r as [a|e]; [|reflexivity]. now apply Hf.
  - intros w' Hw'. rewrite bind_run.
    destruct (Hm w' Hw') as [Hs' _]. specialize (Hv w' Hw').
    destruct (m w') as [r' w1']. cbn [snd fst] in *. subst w1' r'.
    destruct r as [a|e]; [|reflexivity]. now apply Hf.
Qed.

Lemma pure_for_in {A B} (xs : list A) (body : B -> A -> M B) acc :
  (forall acc x, pure_in g (body acc x)) -> pure_in g (for_in xs body acc).
Proof.
  intros Hb. revert acc. induction xs as [|x xs IH]; intros acc; cbn [for_in].
  - apply pure_ret.
  - apply pure_bind; auto.
Qed.

Lemma pure_if {A} (b : bool) (m1 m2 : M A) :
  pure_in g m1 -> pure_in g m2 -> pure_in g (if b then m1 else m2).
Proof. now destruct b. Qed.

Lemma pure_read_OFFLINE_RATES : pure_in g read_OFFLINE_RATES.
Proof.
  intros w Hw. split; [reflexivity|]. intros w' Hw'.
  unfold read_OFFLINE_RATES. cbn [fst]. now rewrite Hw, Hw'.
Qed.

Lemma pure_read_CURRENCIES : pure_in g read_CURRENCIES.
Proof.
  intros w Hw. split; [reflexivity|]. intros w' Hw'.
  unfold read_CURRENCIES. cbn [fst]. now rewrite Hw, Hw'.
Qed.

End Pure.

Ltac pure :=
  repeat first
    [ progress intros
    | apply pure_bind | apply pure_for_in | apply pure_if
    | apply pure_ret | apply pure_lift
    | apply pure_read_OFFLINE_RATES | apply pure_read_CURRENCIES
    | match goal with |- pure_in _ (match ?x with _ => _ end) => destruct x end ].

Section PureFunctions.

Lemma offline_convert_pure g a f t : pure_in g (offline_convert a f t).
Proof. unfold offline_convert, rate_of. pure. Qed.

Lemma offline_rows_pure g i : pure_in g (offline_rows i).
Proof. unfold offline_rows. pure. Qed.

(** After its lookup, [try_live_table] only computes: its value depends on
    the answer of the service and on the globals, not on the page or on
    earlier lookups. *)
Lemma try_live_table_value a f w w' :
  env w' = env w -> service w' = service w ->
  fst (try_live_table a f w') = fst (try_live_table a f w).
Proof.
  intros He Hs. unfold try_live_table.
  rewrite !bind_run. unfold _fetch_latest_rates, remote. rewrite Hs.
  destruct (service w (Latest f)) as [data|e]; [|reflexivity].
  match goal with
  | |- fst (?k ?w1) = fst (?k ?w2) =>
      assert (Hp : pure_in (env w) k) by pure;
      destruct (Hp w2 eq_refl) as [_ Hv]; apply Hv
  end.
  exact He.
Qed.

End PureFunctions.

Section Grows.

Lemma grows_ret {A} (a : A) : grows (mret a).
Proof. intros w. exists []. now rewrite app_nil_r. Qed.

Lemma grows_lift {A} (r : res A) : grows (lift r).
Proof. intros w. exists []. now rewrite app_nil_r. Qed.

Lemma grows_render x : grows (render x).
Proof. intros w. exists [x]. reflexivity. Qed.

Lemma grows_frames {A} (m : M A) : frames page m -> grows m.
Proof. intros H w. exists []. now rewrite app_nil_r, H. Qed.

Lemma grows_bind {A B} (m : M A) (f : A -> M B) :
  grows m -> (forall a, grows (f a)) -> grows (m ≫= f).
Proof.
  intros Hm Hf w. rewrite bind_run. destruct (Hm w) as [l1 H1].
  destruct (m w) as [[a|e] w1]; cbn [snd] in *; [|eauto].
  destruct (Hf a w1) as [l2 H2]. exists (l1 ++ l2). now rewrite H2, H1, app_assoc.
Qed.

Lemma grows_try_except {A} (body : M A) (handler : exn -> M A) :
  grows body -> (forall e, grows (handler e)) -> grows (try_except body handler).
Proof.
  intros Hb Hh w. rewrite try_except_run. destruct (Hb w) as [l1 H1].
  destruct (body w) as [[a|e] w1]; cbn [snd] in *; [eauto|].
  destruct (Hh e w1) as [l2 H2]. exists (l1 ++ l2). now rewrite H2, H1, app_assoc.
Qed.

Lemma grows_if {A} (b : bool) (m1 m2 : M A) :
  grows m1 -> grows m2 -> grows (if b then m1 else m2).
Proof. now destruct b. Qed.

Lemma on_convert_grows i : grows (on_convert i).
Proof.
  assert (Ha : forall h, grows (offline_attempt i h)).
  { intros h. unfold offline_attempt. apply grows_try_except.
    - apply grows_bind; [apply grows_frames, offline_convert_frames|].
      intros. apply grows_render.
    - intros. apply grows_render. }
  unfold on_convert. apply grows_if; [apply Ha|].
  apply grows_try_except.
  - apply grows_bind.
    { apply grows_frames. unfold try_live_convert, _convert_via_api. frame. }
    intros api_data. repeat (apply grows_bind; [apply grows_lift|intros]).
    apply grows_bind; [apply grows_render|intros].
    apply grows_if; [|apply grows_ret].
    apply grows_bind; [apply grows_lift|intros; apply grows_render].
  - intros e. apply grows_bind; [apply grows_render|intros; apply Ha].
Qed.

Lemma on_show_table_grows i : grows (on_show_table i).
Proof.
  assert (Hr : grows (rows ← offline_rows i; render (st_table rows))).
  { apply grows_bind; [apply grows_frames, offline_rows_frames|].
    intros. apply grows_render. }
  unfold on_show_table.
  do 2 (apply grows_bind; [apply grows_render|intros _]).
  apply grows_if; [exact Hr|].
  apply grows_try_except.
  - apply grows_bind.
    { apply grows_frames. unfold try_live_table, _fetch_latest_rates. frame. }
    intros [date rows]. apply grows_bind; [apply grows_render|intros; apply grows_render].
  - intros e. apply grows_bind; [apply grows_render|intros; exact Hr].
Qed.

End Grows.

(** * More about the table handler *)

Section TableHandler.

Lemma on_show_table_live_run i w :
  use_offline_only i = false ->
  let w2 := rendered (st_header (amount i) (from_curr i)) (rendered st_markdown_rule w) in
  on_show_table i w =
  match try_live_table (amount i) (from_curr i) w2 with
  | (Ok (date, rows), w3) =>
      (Ok tt, rendered (st_caption_date date) (rendered (st_table (pretty rows)) w3))
  | (Raise _, w3) =>
      (rows ← offline_rows i; render (st_table rows))
        (rendered st_warning_table_failed w3)
  end.
Proof.
  intros Hm w2. unfold on_show_table. rewrite Hm.
  rewrite bind_run. cbn [render]. rewrite bind_run. cbn [render]. fold w2.
  rewrite try_except_run, bind_run.
  destruct (try_live_table (amount i) (from_curr i) w2) as [[[date rows]|e] w3].
  - rewrite bind_run. reflexivity.
  - rewrite bind_run. reflexivity.
Qed.



(** X10. When the rates lookup fails or its answer is unusable, the table
    handler renders the rule, the header, the fallback warning and the
    offline table, whose lines are the values of [offline_convert] for the
    26 codes; nothing is raised as long as the source currency is in the
    table. *)
Theorem show_table_falls_back_to_offline i w e :
  env w = module_globals ->
  use_offline_only i = false ->
  from_curr i ∈ CURRENCIES ->
  fst (try_live_table (amount i) (from_curr i) w) = Raise e ->
  exists xs,
    Forall2 (fun c x => fst (offline_convert (amount i) (from_curr i) c w) = Ok x)
      CURRENCIES xs /\
    fst (on_show_table i w) = Ok tt /\
    page (snd (on_show_table i w)) =
      page w ++
      [ st_markdown_rule;
        st_header (amount i) (from_curr i);
        st_warning_table_failed;
        st_table (zip CURRENCIES (Amount <$> xs)) ].
Proof.
  intros Hw Hm Hf He.
  rewrite (on_show_table_live_run i w Hm). cbn zeta.
  set (w2 := rendered (st_header (amount i) (from_curr i)) (rendered st_markdown_rule w)).
  assert (He2 : fst (try_live_table (amount i) (from_curr i) w2) = Raise e).
  { rewrite (try_live_table_value _ _ w w2); auto. }
  assert (Hp2 : page (snd (try_live_table (amount i) (from_curr i) w2)) = page w2).
  { assert (F : frames page (try_live_table (amount i) (from_curr i))).
    { unfold try_live_table, _fetch_latest_rates. frame. }
    apply F. }
  assert (Hv2 : env (snd (try_live_table (amount i) (from_curr i) w2)) = module_globals).
  { now rewrite try_live_table_env. }
  destruct (try_live_table (amount i) (from_curr i) w2) as [r w3].
  cbn [fst snd] in *. subst r.
  destruct (offline_rows_run i (rendered st_warning_table_failed w3) Hv2 Hf)
    as (xs & Hxs & Hrows).
  exists xs. split.
  - eapply Forall2_impl; [exact Hxs|]. intros c x <-.
    symmetry. now apply offline_convert_value.
  - rewrite bind_run, Hrows. cbn [fst snd render rendered page].
    split; [reflexivity|]. rewrite Hp2. subst w2. cbn [rendered page].
    now rewrite <- !app_assoc.
Qed.

Lemma show_table_falls_back_to_offline_witness :
  exists xs,
    Forall2 (fun c x => fst (offline_convert Float.one "USD" c (boot service_down)) = Ok x)
      CURRENCIES xs /\
    fst (on_show_table (sample_widgets false) (boot service_down)) = Ok tt /\
    page (snd (on_show_table (sample_widgets false) (boot service_down))) =
      [ st_markdown_rule;
        st_header Float.one "USD";
        st_warning_table_failed;
        st_table (zip CURRENCIES (Amount <$> xs)) ].
Proof.
  apply (show_table_falls_back_to_offline (sample_widgets false) (boot service_down)
           RequestException);
    [reflexivity|reflexivity| |reflexivity].
  apply (bool_decide_unpack (_ ∈ CURRENCIES)); vm_compute; exact I.
Defined.

Lemma offline_rows_unknown i w :
  env w = module_globals ->
  OFFLINE_RATES !! from_curr i = None ->
  offline_rows i w = (Raise (KeyError (from_curr i)), w).
Proof.
  intros Hw Hf. unfold offline_rows. rewrite bind_run. unfold read_CURRENCIES.
  rewrite Hw. cbn [g_CURRENCIES module_globals]. unfold CURRENCIES. cbn [for_in].
  rewrite !bind_run, offline_convert_run, Hf by assumption. reflexivity.
Qed.

(** X11. The offline table is built outside any [try]: when the source
    currency is not a key of the offline table, the table handler raises
    [KeyError] for it, in offline-only mode and in the fallback after a
    failed rates lookup alike, and a run of the script that shows the table
    ends with that exception, whereas the Convert handler reports the same
    error on the page. *)
Theorem show_table_unknown_currency_raises i w :
  env w = module_globals ->
  OFFLINE_RATES !! from_curr i = None ->
  (use_offline_only i = true \/
   exists e, fst (try_live_table (amount i) (from_curr i) w) = Raise e) ->
  fst (on_show_table i w) = Raise (KeyError (from_curr i)) /\
  (show_table i = true -> fst (script i w) = Raise (KeyError (from_curr i))) /\
  (use_offline_only i = true ->
   on_convert i w = (Ok tt, rendered (st_error_offline (KeyError (from_curr i))) w)).
Proof.
  intros Hw Hf Hmode.
  assert (Htab : forall w', env w' = module_globals -> service w' = service w ->
            fst (on_show_table i w') = Raise (KeyError (from_curr i))).
  { intros w' Hw' Hs'. destruct (use_offline_only i) eqn:Hm.
    - unfold on_show_table. rewrite Hm.
      rewrite bind_run. cbn [render]. rewrite bind_run. cbn [render].
      rewrite bind_run, offline_rows_unknown by auto. reflexivity.
    - destruct Hmode as [?|[e He]]; [discriminate|].
      rewrite (on_show_table_live_run i w' Hm). cbn zeta.
      set (w2 := rendered _ (rendered st_markdown_rule w')).
      assert (He2 : fst (try_live_table (amount i) (from_curr i) w2) = Raise e).
      { rewrite (try_live_table_value _ _ w w2); auto. cbn. congruence. }
      assert (Hv2 : env (snd (try_live_table (amount i) (from_curr i) w2)) = module_globals).
      { now rewrite try_live_table_env. }
      destruct (try_live_table (amount i) (from_curr i) w2) as [r w3].
      cbn [fst snd] in *. subst r.
      rewrite bind_run, offline_rows_unknown by auto. reflexivity. }
  split; [now apply Htab|]. split.
  - intros Hshow. unfold script. rewrite Hshow.
    rewrite bind_run. cbn [render]. rewrite bind_run. cbn [render]. rewrite bind_run.
    set (w2 := rendered st_write_intro (rendered st_title w)).
    assert (Hc : exists w3, (if convert_btn i then on_convert i else mret tt) w2 = (Ok tt, w3)
                            /\ env w3 = module_globals /\ service w3 = service w).
    { destruct (convert_btn i).
      - exists (snd (on_convert i w2)). split; [|split].
        + destruct (on_convert i w2) as [r w3] eqn:E.
          assert (fst (on_convert i w2) = Ok tt).
          { destruct (use_offline_only i) eqn:Hm.
            - now rewrite on_convert_offline_only, offline_attempt_run.
            - destruct (on_convert_live_shapes i w2 Hm) as [->|[x [->|[(r' & d & ->)| ->]]]];
                try reflexivity; now rewrite fallback_run. }
          rewrite E in H. cbn in H. now subst r.
        + now rewrite on_convert_env.
        + assert (F : frames service (on_convert i)) by (unfold on_convert; frame).
          now rewrite F.
      - exists w2. auto. }
    destruct Hc as (w3 & -> & Hw3 & Hs3).
    rewrite bind_run.
    specialize (Htab w3 Hw3 Hs3).
    destruct (on_show_table i w3) as [r w4]. cbn in Htab. now subst r.
  - intros Hm. rewrite on_convert_offline_only, offline_attempt_run by assumption.
    now rewrite offline_convert_run, Hf by assumption.
Qed.

Lemma show_table_unknown_currency_raises_witness :
  fst (on_show_table (unknown_widgets true) (boot service_down)) = Raise (KeyError "XXX") /\
  fst (script (unknown_widgets true) (boot service_down)) = Raise (KeyError "XXX") /\
  on_convert (unknown_widgets true) (boot service_down)
    = (Ok tt, rendered (st_error_offline (KeyError "XXX")) (boot service_down)).
Proof.
  destruct (show_table_unknown_currency_raises (unknown_widgets true) (boot service_down))
    as (H1 & H2 & H3);
    [reflexivity|vm_compute; reflexivity|left; reflexivity|].
  split; [exact H1|]. split; [exact (H2 eq_refl)|exact (H3 eq_refl)].
Defined.

End TableHandler.

(** * A whole run of the script *)

Section Script.

Lemma on_convert_ok i w : fst (on_convert i w) = Ok tt.
Proof.
  destruct (use_offline_only i) eqn:Hm.
  - now rewrite on_convert_offline_only, offline_attempt_run.
  - destruct (on_convert_live_shapes i w Hm) as [->|[x [->|[(r & d & ->)| ->]]]];
      try reflexivity; now rewrite fallback_run.
Qed.

Lemma on_show_table_ok i w :
  env w = module_globals -> from_curr i ∈ CURRENCIES ->
  fst (on_show_table i w) = Ok tt.
Proof.
  intros Hw Hf. destruct (use_offline_only i) eqn:Hm.
  - set (w2 := rendered (st_header (amount i) (from_curr i)) (rendered st_markdown_rule w)).
    destruct (offline_rows_run i w2 Hw Hf) as (xs & _ & Hrows).
    now rewrite (on_show_table_offline_only i w _ Hm Hrows).
  - rewrite (on_show_table_live_run i w Hm). cbn zeta.
    set (w2 := rendered _ (rendered st_markdown_rule w)).
    assert (Hv2 : env (snd (try_live_table (amount i) (from_curr i) w2)) = module_globals).
    { now rewrite try_live_table_env. }
    destruct (try_live_table (amount i) (from_curr i) w2) as [[[date rows]|e] w3];
      [reflexivity|].
    cbn [snd] in Hv2.
    destruct (offline_rows_run i (rendered st_warning_table_failed w3) Hv2 Hf)
      as (xs & _ & Hrows).
    now rewrite bind_run, Hrows.
Qed.

(** X12. With a source currency from the enumerated list, a run of the
    script never ends in an uncaught exception, whatever the other widgets
    hold and whatever the service answers; the page it renders starts with
    the title and the introduction and ends with the rule and the notes. *)
Theorem script_completes i w :
  env w = module_globals ->
  from_curr i ∈ CURRENCIES ->
  fst (script i w) = Ok tt /\
  exists mid,
    page (snd (script i w)) =
    page w ++ [st_title; st_write_intro] ++ mid ++ [st_markdown_rule; st_write_notes].
Proof.
  intros Hw Hf. unfold script.
  rewrite bind_run. cbn [render]. rewrite bind_run. cbn [render]. rewrite bind_run.
  set (w2 := rendered st_write_intro (rendered st_title w)).
  assert (Hc : exists w3 l1,
            (if convert_btn i then on_convert i else mret tt) w2 = (Ok tt, w3) /\
            env w3 = module_globals /\ page w3 = page w2 ++ l1).
  { destruct (convert_btn i).
    - destruct (on_convert_grows i w2) as [l1 Hl1].
      pose proof (on_convert_ok i w2) as Hok. pose proof (on_convert_env i w2) as Hev.
      destruct (on_convert i w2) as [r w3]. cbn [fst snd] in *. subst r.
      exists w3, l1. repeat split; auto. now rewrite Hev.
    - exists w2, []. repeat split; auto. now rewrite app_nil_r. }
  destruct Hc as (w3 & l1 & -> & Hw3 & Hp3).
  rewrite bind_run.
  assert (Ht : exists w4 l2,
            (if show_table i then on_show_table i else mret tt) w3 = (Ok tt, w4) /\
            page w4 = page w3 ++ l2).
  { destruct (show_table i).
    - destruct (on_show_table_grows i w3) as [l2 Hl2].
      pose proof (on_show_table_ok i w3 Hw3 Hf) as Hok.
      destruct (on_show_table i w3) as [r w4]. cbn [fst snd] in *. subst r.
      exists w4, l2. auto.
    - exists w3, []. split; auto. now rewrite app_nil_r. }
  destruct Ht as (w4 & l2 & -> & Hp4).
  rewrite bind_run. cbn [render]. cbn [fst snd rendered page].
  split; [reflexivity|]. exists (l1 ++ l2).
  cbn [render snd rendered page].
  rewrite Hp4, Hp3. subst w2. cbn [rendered page].
  rewrite <- !app_assoc. reflexivity.
Qed.

Lemma script_completes_witness :
  fst (script (sample_widgets false) (boot sample_service)) = Ok tt /\
  exists mid,
    page (snd (script (sample_widgets false) (boot sample_service))) =
    [st_title; st_write_intro] ++ mid ++ [st_markdown_rule; st_write_notes].
Proof.
  apply (script_completes (sample_widgets false) (boot sample_service));
    [reflexivity|].
  apply (bool_decide_unpack (_ ∈ CURRENCIES)); vm_compute; exact I.
Defined.






End Script.

(** * More about the live snapshot *)

Section SnapshotEdges.

(** The run of [try_live_table] when every rate is a number or null. *)
Lemma try_live_table_run_null w amount base items rates :
  env w = module_globals ->
  service w (Latest base) = Ok (JObj items) ->
  default (JObj []) (assoc "rates" items) = JObj rates ->
  Forall (fun kv => kv.2 = JNull \/ is_Some (json_number kv.2)) rates ->
  try_live_table amount base w =
  (Ok (default JNull (assoc "date" items),
       map (fun c => (c, snapshot_value_spec amount base rates c)) CURRENCIES),
   looked_up (Latest base) w).
Proof.
  intros Hw Hs Hr Hn.
  unfold try_live_table.
  rewrite bind_run. unfold _fetch_latest_rates, remote. rewrite Hs.
  rewrite bind_run. unfold lift at 1, py_get_or_empty. rewrite Hr.
  rewrite bind_run. unfold read_CURRENCIES.
  cbn [env looked_up]. rewrite Hw. cbn [g_CURRENCIES module_globals].
  rewrite bind_run.
  rewrite (for_in_rows CURRENCIES
             (fun c => (c, snapshot_value_spec amount base rates c))).
  - reflexivity.
  - intros acc cur _. unfold snapshot_value_spec.
    rewrite bind_run.
    destruct (String.eqb_spec cur base) as [->|Hne].
    + rewrite decide_True by reflexivity. reflexivity.
    + rewrite decide_False by assumption.
      rewrite bind_run. unfold lift at 1, py_get.
      destruct (assoc cur rates) as [r|] eqn:Hc; cbn [default from_option id];
        [|reflexivity].
      apply assoc_elem in Hc. rewrite Forall_forall in Hn.
      destruct (Hn _ Hc) as [Hnull|[x Hx]]; cbn [snd] in *.
      * subst r. reflexivity.
      * destruct (py_mul_number amount r x Hx) as [Hnn Hm].
        rewrite Hx. cbn [mbind option_bind].
        destruct r; try congruence; rewrite bind_run; unfold lift; rewrite Hm; reflexivity.
Qed.

(** X14. A rate that is present but null is treated like a missing one:
    the code gets the unavailable marker, the other rows are computed as
    usual and the snapshot still has its 26 rows. *)
Theorem snapshot_null_rate_unavailable w amount base items rates :
  env w = module_globals ->
  service w (Latest base) = Ok (JObj items) ->
  default (JObj []) (assoc "rates" items) = JObj rates ->
  Forall (fun kv => kv.2 = JNull \/ is_Some (json_number kv.2)) rates ->
  exists date rows,
    fst (try_live_table amount base w) = Ok (date, rows) /\
    rows.*1 = CURRENCIES /\
    forall c, c ∈ CURRENCIES -> c <> base ->
      (assoc c rates = Some JNull -> (c, None) ∈ rows) /\
      (forall r x, assoc c rates = Some r -> json_number r = Some x ->
         (c, Some (Float.mul amount x)) ∈ rows).
Proof.
  intros Hw Hs Hr Hn.
  rewrite (try_live_table_run_null w amount base items rates Hw Hs Hr Hn).
  eexists _, _. split; [reflexivity|]. split.
  { rewrite <- list_fmap_compose. apply list_fmap_id. }
  intros c Hc Hne.
  assert (Hrow : (c, snapshot_value_spec amount base rates c)
                 ∈ map (fun c => (c, snapshot_value_spec amount base rates c)) CURRENCIES).
  { apply (list_elem_of_fmap_2 (fun c => (c, snapshot_value_spec amount base rates c))).
    exact Hc. }
  unfold snapshot_value_spec in Hrow. rewrite decide_False in Hrow by assumption.
  split.
  - intros Ha. now rewrite Ha in Hrow.
  - intros r x Ha Hx. now rewrite Ha, Hx in Hrow.
Qed.

Lemma snapshot_null_rate_unavailable_witness :
  exists date rows,
    fst (try_live_table Float.one "USD" (boot (latest_service sample_rates_null)))
      = Ok (date, rows) /\
    rows.*1 = CURRENCIES /\
    forall c, c ∈ CURRENCIES -> c <> "USD"%string ->
      (assoc c sample_rates_null = Some JNull -> (c, None) ∈ rows) /\
      (forall r x, assoc c sample_rates_null = Some r -> json_number r = Some x ->
         (c, Some (Float.mul Float.one x)) ∈ rows).
Proof.
  apply (snapshot_null_rate_unavailable (boot (latest_service sample_rates_null))
           Float.one "USD"
           [ ("date", JStr "2024-01-01"); ("rates", JObj sample_rates_null) ]%string
           sample_rates_null);
    try reflexivity.
  apply Forall_cons. split; [right; eexists; vm_compute; reflexivity|].
  apply Forall_cons. split; [left; reflexivity|]. apply Forall_nil. exact I.
Defined.

(** A loop whose body appends a row or raises, leaving the world alone,
    stops at the first element that raises. *)
Lemma for_in_raises {A B} (xs : list A) (g : A -> res B)
    (body : list B -> A -> M (list B)) acc w :
  (forall acc x, body acc x w =
     (match g x with Ok v => Ok (acc ++ [v]) | Raise e => Raise e end, w)) ->
  (exists x e, x ∈ xs /\ g x = Raise e) ->
  exists x e, x ∈ xs /\ g x = Raise e /\ for_in xs body acc w = (Raise e, w).
Proof.
  intros Hb. revert acc. induction xs as [|x xs IH]; intros acc (y & e & Hy & Hg).
  - now apply elem_of_nil in Hy.
  - cbn [for_in]. rewrite bind_run, Hb.
    destruct (g x) as [v|e'] eqn:Hx.
    + apply elem_of_cons in Hy as [->|Hy]; [congruence|].
      destruct (IH (acc ++ [v])) as (x' & e'' & Hx' & Hg' & Hrun); [eauto|].
      exists x', e''. split; [now apply list_elem_of_further|]. auto.
    + exists x, e'. split; [apply list_elem_of_here|]. auto.
Qed.

Lemma py_mul_errors amount r e :
  py_mul amount r = Raise e -> e = TypeError \/ e = OverflowError.
Proof.
  destruct r; cbn [py_mul]; try (intros [= <-]; auto); try discriminate.
  unfold float_of_int. cbn zeta. destruct (Float.is_finite (Float.of_Z n)); [discriminate|].
  intros [= <-]. auto.
Qed.

(** X15. One unusable rate spoils the whole snapshot: when the answer
    holds, for an enumerated code other than the base, a rate that cannot
    be multiplied (a string, a list, an object, an int too large for a
    float), [try_live_table] raises [TypeError] or [OverflowError] and
    returns no rows at all. *)
Theorem snapshot_unusable_rate_raises w amount base items rates c v e0 :
  env w = module_globals ->
  service w (Latest base) = Ok (JObj items) ->
  default (JObj []) (assoc "rates" items) = JObj rates ->
  c ∈ CURRENCIES -> c <> base ->
  assoc c rates = Some v -> v <> JNull -> py_mul amount v = Raise e0 ->
  exists e,
    fst (try_live_table amount base w) = Raise e /\
    (e = TypeError \/ e = OverflowError).
Proof.
  intros Hw Hs Hr Hc Hne Hv Hnn Hm.
  set (g := fun cur : string =>
    if String.eqb cur base then Ok (cur, Some amount)
    else match default JNull (assoc cur rates) with
         | JNull => Ok (cur, None)
         | r => match py_mul amount r with
                | Ok x => Ok (cur, Some x)
                | Raise e => Raise e
                end
         end).
  assert (Hg : forall cur e, g cur = Raise e -> e = TypeError \/ e = OverflowError).
  { intros cur e. subst g. cbn beta.
    destruct (String.eqb cur base); [discriminate|].
    destruct (default JNull (assoc cur rates)) eqn:Hd; try discriminate;
      match goal with
      | |- context [py_mul amount ?r] =>
          destruct (py_mul amount r) eqn:Hp; [discriminate|];
          intros [= <-]; exact (py_mul_errors _ _ _ Hp)
      end. }
  unfold try_live_table.
  rewrite bind_run. unfold _fetch_latest_rates, remote. rewrite Hs.
  rewrite bind_run. unfold lift at 1, py_get_or_empty. rewrite Hr.
  rewrite bind_run. unfold read_CURRENCIES.
  cbn [env looked_up]. rewrite Hw. cbn [g_CURRENCIES module_globals].
  rewrite bind_run.
  match goal with
  | |- context [for_in CURRENCIES ?body [] ?w1] =>
      destruct (for_in_raises CURRENCIES g body [] w1) as (x & e & _ & Hx & ->)
  end.
  - intros acc cur. subst g. cbn beta. rewrite bind_run.
    destruct (String.eqb cur base); [reflexivity|].
    rewrite bind_run. unfold lift at 1, py_get.
    destruct (default JNull (assoc cur rates)); try reflexivity;
      rewrite bind_run; unfold lift at 1;
      match goal with
      | |- context [py_mul amount ?r] => destruct (py_mul amount r); reflexivity
      end.
  - exists c. subst g. cbn beta.
    destruct (String.eqb_spec c base) as [?|_]; [contradiction|].
    rewrite Hv. cbn [default from_option id].
    exists e0. split; [exact Hc|]. destruct v; try congruence; now rewrite Hm.
  - exists e. split; [reflexivity|]. eapply Hg; eauto.
Qed.

Lemma snapshot_unusable_rate_raises_witness :
  exists e,
    fst (try_live_table Float.one "USD" (boot (latest_service sample_rates_bad))) = Raise e /\
    (e = TypeError \/ e = OverflowError).
Proof.
  apply (snapshot_unusable_rate_raises (boot (latest_service sample_rates_bad))
           Float.one "USD"
           [ ("date", JStr "2024-01-01"); ("rates", JObj sample_rates_bad) ]%string
           sample_rates_bad "JPY" (JStr "150") TypeError);
    try reflexivity; try discriminate.
  apply (bool_decide_unpack (_ ∈ CURRENCIES)); vm_compute; exact I.
Defined.


(** X16. The other ways the live snapshot fails: an error of the service
    is passed on as it is, and an answer that is not an object, or whose
    ["rates"] is present but not an object, raises [AttributeError]. *)
Theorem snapshot_malformed_answer_raises w amount base :
  env w = module_globals ->
  (forall e, service w (Latest base) = Raise e ->
     fst (try_live_table amount base w) = Raise e) /\
  (forall d, service w (Latest base) = Ok d -> (forall items, d <> JObj items) ->
     fst (try_live_table amount base w) = Raise AttributeError) /\
  (forall items v, service w (Latest base) = Ok (JObj items) ->
     assoc "rates" items = Some v -> (forall rates, v <> JObj rates) ->
     fst (try_live_table amount base w) = Raise AttributeError).
Proof.
  intros Hw. split; [|split].
  - intros e Hs. unfold try_live_table.
    rewrite bind_run. unfold _fetch_latest_rates, remote. now rewrite Hs.
  - intros d Hs Hno. unfold try_live_table.
    rewrite bind_run. unfold _fetch_latest_rates, remote. rewrite Hs.
    rewrite bind_run. unfold lift at 1, py_get_or_empty.
    destruct d; try reflexivity. now destruct (Hno items).
  - intros items v Hs Hv Hno.
    set (g := fun cur : string =>
      if String.eqb cur base then @Ok (string * option float) (cur, Some amount)
      else Raise AttributeError).
    unfold try_live_table.
    rewrite bind_run. unfold _fetch_latest_rates, remote. rewrite Hs.
    rewrite bind_run. unfold lift at 1, py_get_or_empty. rewrite Hv.
    cbn [default from_option id].
    rewrite bind_run. unfold read_CURRENCIES.
    cbn [env looked_up]. rewrite Hw. cbn [g_CURRENCIES module_globals].
    rewrite bind_run.
    match goal with
    | |- context [for_in CURRENCIES ?body [] ?w1] =>
        destruct (for_in_raises CURRENCIES g body [] w1) as (x & e & _ & Hx & ->)
    end.
    + intros acc cur. subst g. cbn beta. rewrite bind_run.
      destruct (String.eqb cur base); [reflexivity|].
      rewrite bind_run. unfold lift at 1, py_get.
      destruct v; try reflexivity. now destruct (Hno items0).
    + destruct (String.eqb_spec "USD" base) as [Hb|Hb].
      * exists "EUR"%string, AttributeError. split.
        { apply (bool_decide_unpack (_ ∈ CURRENCIES)); vm_compute; exact I. }
        subst g base. reflexivity.
      * exists "USD"%string, AttributeError. split.
        { apply (bool_decide_unpack (_ ∈ CURRENCIES)); vm_compute; exact I. }
        subst g. cbn beta. now destruct (String.eqb_spec "USD" base).
    + subst g. cbn beta in Hx. destruct (String.eqb x base); [discriminate|].
      now injection Hx as <-.
Qed.

Lemma snapshot_malformed_answer_raises_witness :
  fst (try_live_table Float.one "USD" (boot service_down)) = Raise RequestException /\
  fst (try_live_table Float.one "USD"
         (boot (fun _ => Ok (JObj [ ("rates", JArr []) ]%string)))) = Raise AttributeError.
Proof.
  split.
  - destruct (snapshot_malformed_answer_raises (boot service_down) Float.one "USD" eq_refl)
      as (H & _ & _).
    apply H. reflexivity.
  - destruct (snapshot_malformed_answer_raises
                (boot (fun _ => Ok (JObj [ ("rates", JArr []) ]%string)))
                Float.one "USD" eq_refl) as (_ & _ & H).
    apply (H [ ("rates", JArr []) ]%string (JArr [])); [reflexivity|reflexivity|discriminate].
Defined.

End SnapshotEdges.
